(** * Cluster-health collector of the pixiu exporter

    A shallow embedding of [collector/cluster_health.go] and the properties of
    its describe/collect cycle.

    The collector is modelled the way it is written: the receiver [*c], the
    heap cell behind [c.url], the requests handed to the HTTP client, the log
    and the metric channel are threaded through a small state monad.  The Go
    and Prometheus library functions the collector calls are modelled at their
    interface; the ones whose results are opaque to the collector
    ([json.Unmarshal], [path.Join], the [url.URL] accessors) and the remote
    endpoint are parameters. *)

From Stdlib Require Import ZArith List String Ascii Bool Lia Permutation.
From Stdlib Require Import Floats.SpecFloat.
From Stdlib Require Import Decimal DecimalZ DecimalString.
From Stdlib Require DecimalPos.
From Stdlib Require Import Strings.Byte.
Import ListNotations.

Open Scope string_scope.
Open Scope Z_scope.

(** ** Go values *)

Module Go.

(** Go's [int]: the collector only stores and converts these. *)
Definition int := Z.

(** Go's [float64], as IEEE 754 binary64 values. *)
Definition float64 := spec_float.

(** The conversion [float64(n)] of an integer: round to nearest, ties to
    even. *)
Definition float64_of_int (n : int) : float64 :=
  binary_normalize 53 1024 n 0 false.

(** The float constants [0] and [1]. *)
Definition f0 : float64 := S754_zero false.
Definition f1 : float64 := S754_finite false 4503599627370496 (-52).

(** An [error] value is observed only through its [Error()] text; a nil
    error is [None] in an [option error]. *)
Definition error := string.

(** The verb [%d] of [fmt]: the decimal text of an integer. *)
Definition itoa (n : int) : string := NilZero.string_of_int (Z.to_int n).

(** Reading a decimal text back. *)
Definition atoi (s : string) : option int :=
  option_map Z.of_int (NilZero.int_of_string s).

(** [strip_prefix p s] is [Some r] when [s = p ++ r]. *)
Fixpoint strip_prefix (p s : string) : option string :=
  match p with
  | EmptyString => Some s
  | String a p' =>
      match s with
      | EmptyString => None
      | String b s' => if Ascii.eqb a b then strip_prefix p' s' else None
      end
  end.

(** Addresses of heap cells. *)
Definition ptr := nat.

End Go.

(** ** net/url *)

Module url.

(** The fields of [url.URL]. *)
Record URL := mkURL {
  Scheme : string;
  Opaque : string;
  User : option string;
  Host : string;
  Path : string;
  RawPath : string;
  ForceQuery : bool;
  RawQuery : string;
  Fragment : string
}.

(** The assignment [u.Path = p] on a struct value. *)
Definition with_Path (p : string) (u : URL) : URL :=
  mkURL (Scheme u) (Opaque u) (User u) (Host u) p (RawPath u)
        (ForceQuery u) (RawQuery u) (Fragment u).

End url.

(** ** net/http *)

Module http.

Definition StatusOK : Go.int := 200.

(** What the collector can observe of a [*http.Response]: the status code,
    the result of reading the body to its end and the result of closing
    it. *)
Record Response := mkResponse {
  StatusCode : Go.int;
  Body_ReadAll : list byte * option Go.error;
  Body_Close : option Go.error
}.

(** The result pair of [client.Get]. *)
Inductive GetResult :=
| GetOk (res : Response)
| GetErr (err : Go.error).

End http.

(** ** The health snapshot *)

Record clusterHealthResponse := mkClusterHealthResponse {
  ClusterName : string;
  Status : string;
  TimedOut : bool;
  NumberOfNodes : Go.int;
  NumberOfDataNodes : Go.int;
  ActivePrimaryShards : Go.int;
  ActiveShards : Go.int;
  RelocatingShards : Go.int;
  InitializingShards : Go.int;
  UnassignedShards : Go.int;
  DelayedUnassignedShards : Go.int;
  NumberOfPendingTasks : Go.int;
  NumberOfInFlightFetch : Go.int;
  TaskMaxWaitingInQueueMillis : Go.int;
  ActiveShardsPercentAsNumber : Go.float64
}.

(** The zero value of the struct, as [var chr clusterHealthResponse] makes
    it. *)
Definition zero_clusterHealthResponse : clusterHealthResponse :=
  mkClusterHealthResponse "" "" false 0 0 0 0 0 0 0 0 0 0 0 Go.f0.

(** The snapshot with another [ActiveShardsPercentAsNumber]. *)
Definition with_ActiveShardsPercentAsNumber (p : Go.float64)
    (r : clusterHealthResponse) : clusterHealthResponse :=
  mkClusterHealthResponse (ClusterName r) (Status r) (TimedOut r)
    (NumberOfNodes r) (NumberOfDataNodes r) (ActivePrimaryShards r)
    (ActiveShards r) (RelocatingShards r) (InitializingShards r)
    (UnassignedShards r) (DelayedUnassignedShards r) (NumberOfPendingTasks r)
    (NumberOfInFlightFetch r) (TaskMaxWaitingInQueueMillis r) p.

(** ** The Prometheus client library, at its interface *)

Module prometheus.

Inductive ValueType := CounterValue | GaugeValue | UntypedValue.

Record Desc := mkDesc {
  fqName : string;
  help : string;
  variableLabels : list string;
  constLabels : list (string * string)
}.

Definition NewDesc (fqName help : string) (variableLabels : list string)
    (constLabels : list (string * string)) : Desc :=
  mkDesc fqName help variableLabels constLabels.

(** [BuildFQName] joins its non-empty parts with an underscore; an empty
    name gives the empty string. *)
Definition BuildFQName (namespace subsystem name : string) : string :=
  if String.eqb name "" then ""
  else if negb (String.eqb namespace "") && negb (String.eqb subsystem "")
       then namespace ++ "_" ++ subsystem ++ "_" ++ name
  else if negb (String.eqb namespace "") then namespace ++ "_" ++ name
  else if negb (String.eqb subsystem "") then subsystem ++ "_" ++ name
  else name.

(** A gauge object: its description and its current value. *)
Record Gauge := mkGauge { gaugeDesc : Desc; gaugeVal : Go.float64 }.

(** A counter object: its description and the number of [Inc] calls it has
    received since it was made. *)
Record Counter := mkCounter { counterDesc : Desc; counterVal : nat }.

(** [NewGauge] and [NewCounter], from the [Name] and [Help] options. *)
Definition NewGauge (Name Help : string) : Gauge :=
  mkGauge (NewDesc Name Help [] []) Go.f0.

Definition NewCounter (Name Help : string) : Counter :=
  mkCounter (NewDesc Name Help [] []) 0%nat.

Definition Gauge_Set (v : Go.float64) (g : Gauge) : Gauge :=
  mkGauge (gaugeDesc g) v.

Definition Counter_Inc (c : Counter) : Counter :=
  mkCounter (counterDesc c) (S (counterVal c)).

(** The objects of the collector that are sent on the metric channel as
    they are: the channel then holds the live object, not a copy of its
    value. *)
Inductive Own := own_up | own_totalScrapes | own_jsonParseFailures.

(** What travels on a [chan<- prometheus.Metric]: a constant metric made by
    [MustNewConstMetric], or one of the collector's own objects. *)
Inductive Metric :=
| constMetric (desc : Desc) (valueType : ValueType) (value : Go.float64)
              (labelValues : list string)
| ownMetric (o : Own).

(** [MustNewConstMetric] on its returning path.  It panics when the number
    of label values differs from the number of variable labels of the
    description; [labels_fit] is that check. *)
Definition MustNewConstMetric (desc : Desc) (valueType : ValueType)
    (value : Go.float64) (labelValues : list string) : Metric :=
  constMetric desc valueType value labelValues.

Definition labels_fit (m : Metric) : bool :=
  match m with
  | constMetric d _ _ ls =>
      Nat.eqb (List.length ls) (List.length (variableLabels d))
  | ownMetric _ => true
  end.

(** Descriptions are compared field by field. *)
Definition Desc_eq_dec (a b : Desc) : {a = b} + {a <> b}.
Proof.
  decide equality; try apply (list_eq_dec string_dec).
  - apply list_eq_dec. decide equality; apply string_dec.
  - apply string_dec.
  - apply string_dec.
Defined.

Definition Desc_eqb (a b : Desc) : bool :=
  if Desc_eq_dec a b then true else false.

End prometheus.

Import Go url http prometheus.

(** ** Library functions whose results the collector passes on unread *)

(** [path.Join], the [String], [Hostname] and [Port] methods of [url.URL], and
    [json.Unmarshal] into a [*clusterHealthResponse]: the latter returns the
    struct as the decoder left it, with the error it reports, if any. *)
Class Runtime := {
  path_Join : list string -> string;
  URL_String : URL -> string;
  URL_Hostname : URL -> string;
  URL_Port : URL -> string;
  json_Unmarshal :
    list byte -> clusterHealthResponse -> clusterHealthResponse * option error
}.

(** ** The collector's types *)

Definition clusterHealthSubsystem : string := "cluster_health_subsystem".

Definition colors : list string := ["green"; "yellow"; "red"].
Definition defaultClusterHealthLabels : list string := ["cluster"].

Record clusterHealthMetric := mkClusterHealthMetric {
  metric_Type : ValueType;
  metric_Desc : Desc;
  metric_Value : clusterHealthResponse -> float64
}.

(** The [Labels] function is never set, hence nil. *)
Record clusterHealthStatusMetric := mkClusterHealthStatusMetric {
  status_Type : ValueType;
  status_Desc : Desc;
  status_Value : clusterHealthResponse -> string -> float64;
  status_Labels : option (string -> string -> list string)
}.

(** The struct [ClusterHealth].  The [logger] and [client] fields are handles
    on the outside world: what is written through the one and what the other
    answers live in [State] below.  [url] is a pointer. *)
Record ClusterHealth := mkClusterHealth {
  url : ptr;
  up : Gauge;
  totalScrapes : Counter;
  jsonParseFailures : Counter;
  metrics : list clusterHealthMetric;
  statusMetric : clusterHealthStatusMetric
}.

Definition with_up (g : Gauge) (c : ClusterHealth) : ClusterHealth :=
  mkClusterHealth (url c) g (totalScrapes c) (jsonParseFailures c)
                  (metrics c) (statusMetric c).

Definition with_totalScrapes (n : Counter) (c : ClusterHealth) : ClusterHealth :=
  mkClusterHealth (url c) (up c) n (jsonParseFailures c)
                  (metrics c) (statusMetric c).

Definition with_jsonParseFailures (n : Counter) (c : ClusterHealth)
    : ClusterHealth :=
  mkClusterHealth (url c) (up c) (totalScrapes c) n
                  (metrics c) (statusMetric c).

(** ** The state a call runs in *)

(** [this] is the receiver [*c]; [heap] holds the [url.URL] values behind
    pointers; [requests] are the URLs given to [client.Get] so far, oldest
    first; [closed] counts the response bodies closed; [logged] are the lines
    written through the logger; [ch] is what has been sent on the metric
    channel, oldest first. *)
Record State := mkState {
  this : ClusterHealth;
  heap : ptr -> URL;
  requests : list string;
  closed : nat;
  logged : list string;
  ch : list Metric
}.

Definition M (A : Type) : Type := State -> A * State.

Definition ret {A} (a : A) : M A := fun s => (a, s).

Definition bind {A B} (m : M A) (k : A -> M B) : M B :=
  fun s => let (a, s') := m s in k a s'.

Notation "x <- m ;; k" := (bind m (fun x => k))
  (at level 61, m at next level, right associativity).
Notation "m ;; k" := (bind m (fun _ => k))
  (at level 61, right associativity).

(** Reading and updating the receiver. *)
Definition get_this : M ClusterHealth := fun s => (this s, s).

Definition modify_this (f : ClusterHealth -> ClusterHealth) : M unit :=
  fun s => (tt, mkState (f (this s)) (heap s) (requests s) (closed s)
                        (logged s) (ch s)).

(** [*p] for a pointer to a [url.URL]. *)
Definition load (p : ptr) : M URL := fun s => (heap s p, s).

(** [res.Body.Close()]. *)
Definition close (res : Response) : M (option error) :=
  fun s => (Body_Close res,
            mkState (this s) (heap s) (requests s) (S (closed s))
                    (logged s) (ch s)).

(** [c.logger.Output(calldepth, line)]; its result is dropped by every
    caller. *)
Definition logger_Output (calldepth : int) (line : string) : M unit :=
  fun s => (tt, mkState (this s) (heap s) (requests s) (closed s)
                        (logged s ++ [line]) (ch s)).

(** [ch <- m]. *)
Definition send (m : Metric) : M unit :=
  fun s => (tt, mkState (this s) (heap s) (requests s) (closed s)
                        (logged s) (ch s ++ [m])).

(** [for _, x := range l { body x }]. *)
Fixpoint for_range {A} (l : list A) (body : A -> M unit) : M unit :=
  match l with
  | [] => ret tt
  | x :: l' => body x ;; for_range l' body
  end.

(** [defer d] ahead of [body]: [d] runs once [body] has its result. *)
Definition defer {A} (d : M unit) (body : M A) : M A :=
  r <- body ;; d ;; ret r.

(** A function run [n] times in a row. *)
Fixpoint times (n : nat) (m : M unit) : M unit :=
  match n with
  | O => ret tt
  | S n' => m ;; times n' m
  end.

(** What a gatherer reads off a channel item, given the collector the own
    objects belong to. *)
Definition Metric_Desc (c : ClusterHealth) (m : Metric) : Desc :=
  match m with
  | constMetric d _ _ _ => d
  | ownMetric own_up => gaugeDesc (up c)
  | ownMetric own_totalScrapes => counterDesc (totalScrapes c)
  | ownMetric own_jsonParseFailures => counterDesc (jsonParseFailures c)
  end.

Definition const_value (m : Metric) : option float64 :=
  match m with constMetric _ _ v _ => Some v | ownMetric _ => None end.

(** The constant metrics of a channel whose description is [d]. *)
Definition samples_of (d : Desc) (l : list Metric) : list Metric :=
  filter (fun m => match m with
                   | constMetric d' _ _ _ => Desc_eqb d' d
                   | ownMetric _ => false
                   end) l.

(** The constant metrics of a channel described by one of [ds]. *)
Definition samples_in (ds : list Desc) (l : list Metric) : list Metric :=
  filter (fun m => match m with
                   | constMetric d' _ _ _ => existsb (Desc_eqb d') ds
                   | ownMetric _ => false
                   end) l.

Section Collector.

Context {R : Runtime}.

(** [global.Namespace], a constant of another package of the repository. *)
Variable Namespace : string.

(** The remote end: what [client.Get] returns for the [n]-th request the
    process makes, given the URL asked for. *)
Variable network : nat -> string -> GetResult.

(** [c.client.Get(u)]. *)
Definition client_Get (u : string) : M GetResult :=
  fun s => (network (List.length (requests s)) u,
            mkState (this s) (heap s) (requests s ++ [u]) (closed s)
                    (logged s) (ch s)).

(** One entry of the table: a gauge described under the collector's
    subsystem, labelled by the cluster, with its extraction function. *)
Definition field (name helpText : string)
    (value : clusterHealthResponse -> float64) : clusterHealthMetric :=
  mkClusterHealthMetric GaugeValue
    (NewDesc (BuildFQName Namespace clusterHealthSubsystem name) helpText
             defaultClusterHealthLabels [])
    value.

(** [NewClusterHealth]: fresh gauge and counters, the table of eleven field
    metrics and the status metric. *)
Definition NewClusterHealth (url : ptr) : ClusterHealth :=
  mkClusterHealth url
    (NewGauge (BuildFQName Namespace clusterHealthSubsystem "up")
       "Was the last scrape of the Pixiu cluster health  successful.")
    (NewCounter (BuildFQName Namespace clusterHealthSubsystem "total_scrapes")
       "Current total Pixiu cluster health scrapes.")
    (NewCounter
       (BuildFQName Namespace clusterHealthSubsystem "json_parse_failures")
       "Number of errors while parsing JSON.")
    [ field "active_primary_shards"
        "The number of primary shards in your cluster. This is an aggregate total across all indices."
        (fun clusterHealth => float64_of_int (ActivePrimaryShards clusterHealth));
      field "active_shards"
        "Aggregate total of all shards across all indices, which includes replica shards."
        (fun clusterHealth => float64_of_int (ActiveShards clusterHealth));
      field "delayed_unassigned_shards"
        "Shards delayed to reduce reallocation overhead"
        (fun clusterHealth =>
           float64_of_int (DelayedUnassignedShards clusterHealth));
      field "initializing_shards"
        "Count of shards that are being freshly created."
        (fun clusterHealth => float64_of_int (InitializingShards clusterHealth));
      field "number_of_data_nodes"
        "Number of data nodes in the cluster."
        (fun clusterHealth => float64_of_int (NumberOfDataNodes clusterHealth));
      field "number_of_in_flight_fetch"
        "The number of ongoing shard info requests."
        (fun clusterHealth =>
           float64_of_int (NumberOfInFlightFetch clusterHealth));
      field "task_max_waiting_in_queue_millis"
        "Tasks max time waiting in queue."
        (fun clusterHealth =>
           float64_of_int (TaskMaxWaitingInQueueMillis clusterHealth));
      field "number_of_nodes"
        "Number of nodes in the cluster."
        (fun clusterHealth => float64_of_int (NumberOfNodes clusterHealth));
      field "number_of_pending_tasks"
        "Cluster level changes which have not yet been executed"
        (fun clusterHealth =>
           float64_of_int (NumberOfPendingTasks clusterHealth));
      field "relocating_shards"
        "The number of shards that are currently moving from one node to another node."
        (fun clusterHealth => float64_of_int (RelocatingShards clusterHealth));
      field "unassigned_shards"
        "The number of shards that exist in the cluster state, but cannot be found in the cluster itself."
        (fun clusterHealth => float64_of_int (UnassignedShards clusterHealth)) ]
    (mkClusterHealthStatusMetric GaugeValue
       (NewDesc (BuildFQName Namespace clusterHealthSubsystem "status")
          "Whether all primary and replica shards are allocated."
          ["cluster"; "color"] [])
       (fun clusterHealth color =>
          if String.eqb (Status clusterHealth) color then f1 else f0)
       None).

(** [Describe]: the descriptions sent on [ch], in order. *)
Definition Describe (c : ClusterHealth) : list Desc :=
  map metric_Desc (metrics c)
  ++ [status_Desc (statusMetric c)]
  ++ [gaugeDesc (up c)]
  ++ [counterDesc (totalScrapes c)]
  ++ [counterDesc (jsonParseFailures c)].

(** [fetchAndDecodeClusterHealth]: one GET on the health endpoint; the body
    is closed once a response was obtained, whatever follows. *)
Definition fetchAndDecodeClusterHealth
    : M (clusterHealthResponse * option error) :=
  let chr := zero_clusterHealthResponse in
  c <- get_this ;;
  u <- load (url c) ;;
  let u := with_Path (path_Join [Path u; "/_cluster/health"]) u in
  r <- client_Get (URL_String u) ;;
  match r with
  | GetErr err =>
      ret (chr,
           Some ("failed to get cluster health from " ++ Scheme u ++ "://"
                 ++ URL_Hostname u ++ ":" ++ URL_Port u ++ Path u ++ ": "
                 ++ err))
  | GetOk res =>
      defer
        (err <- close res ;;
         match err with
         | Some e =>
             logger_Output 2
               ("msg:" ++ "failed to close http.Client" ++ "err:" ++ e)
         | None => ret tt
         end)
        (if negb (StatusCode res =? StatusOK) then
           ret (chr,
                Some ("HTTP Request failed with code "
                      ++ itoa (StatusCode res)))
         else
           let (bts, err) := Body_ReadAll res in
           match err with
           | Some e =>
               modify_this (fun c =>
                 with_jsonParseFailures
                   (Counter_Inc (jsonParseFailures c)) c) ;;
               ret (chr, Some e)
           | None =>
               let (chr, err) := json_Unmarshal bts chr in
               match err with
               | Some e =>
                   modify_this (fun c =>
                     with_jsonParseFailures
                       (Counter_Inc (jsonParseFailures c)) c) ;;
                   ret (chr, Some e)
               | None => ret (chr, None)
               end
           end)
  end.

(** [Collect]: the deferred function sends the three own objects when the
    body is done, on the failure path and on the success path alike. *)
Definition Collect : M unit :=
  modify_this (fun c => with_totalScrapes (Counter_Inc (totalScrapes c)) c) ;;
  defer
    (send (ownMetric own_up) ;;
     send (ownMetric own_totalScrapes) ;;
     send (ownMetric own_jsonParseFailures))
    (r <- fetchAndDecodeClusterHealth ;;
     let (clusterHealthResp, err) := r in
     match err with
     | Some e =>
         modify_this (fun c => with_up (Gauge_Set f0 (up c)) c) ;;
         logger_Output 2
           ("msg:" ++ "failed to fetch and decode cluster health" ++ "err:"
            ++ e)
     | None =>
         modify_this (fun c => with_up (Gauge_Set f1 (up c)) c) ;;
         c <- get_this ;;
         for_range (metrics c) (fun metric =>
           send (MustNewConstMetric (metric_Desc metric)
                   (metric_Type metric)
                   (metric_Value metric clusterHealthResp)
                   [ClusterName clusterHealthResp])) ;;
         for_range colors (fun color =>
           send (MustNewConstMetric (status_Desc (statusMetric c))
                   (status_Type (statusMetric c))
                   (status_Value (statusMetric c) clusterHealthResp color)
                   [ClusterName clusterHealthResp; color]))
     end).

End Collector.

(** ** Observations on a call *)

(** The URL a fetch started in [s] asks for. *)
Definition request_URL {R : Runtime} (s : State) : string :=
  let u := heap s (url (this s)) in
  URL_String (with_Path (path_Join [Path u; "/_cluster/health"]) u).

(** What the remote end answers to a fetch started in [s]. *)
Definition answer {R : Runtime} (network : nat -> string -> GetResult)
    (s : State) : GetResult :=
  network (List.length (requests s)) (request_URL s).

(** The pair a fetch started in [s] returns. *)
Definition fetched {R : Runtime} (network : nat -> string -> GetResult)
    (s : State) : clusterHealthResponse * option error :=
  fst (fetchAndDecodeClusterHealth network s).

(** The ways a fetch fails: the request gets no response, the response has
    another status than 200, or its body cannot be read or decoded. *)
Inductive fetch_failure {R : Runtime} (network : nat -> string -> GetResult)
    (s : State) : Prop :=
| transport_error (err : error) :
    answer network s = GetErr err -> fetch_failure network s
| unexpected_status (res : Response) :
    answer network s = GetOk res -> StatusCode res <> StatusOK ->
    fetch_failure network s
| unreadable_body (res : Response) (bts : list byte) (err : error) :
    answer network s = GetOk res -> StatusCode res = StatusOK ->
    Body_ReadAll res = (bts, Some err) -> fetch_failure network s
| undecodable_body (res : Response) (bts : list byte)
    (chr : clusterHealthResponse) (err : error) :
    answer network s = GetOk res -> StatusCode res = StatusOK ->
    Body_ReadAll res = (bts, None) ->
    json_Unmarshal bts zero_clusterHealthResponse = (chr, Some err) ->
    fetch_failure network s.

(** What a call sent on the channel: the items of [after] past those of
    [before]. *)
Definition emitted (before after : State) : list Metric :=
  skipn (List.length (ch before)) (ch after).

(** The collector's tables are the ones [NewClusterHealth] builds under
    namespace [ns]. *)
Definition tables_of (ns : string) (c : ClusterHealth) : Prop :=
  metrics c = metrics (NewClusterHealth ns (url c))
  /\ statusMetric c = statusMetric (NewClusterHealth ns (url c)).

(** The field sample and the status sample Collect builds. *)
Definition field_sample (chr : clusterHealthResponse)
    (metric : clusterHealthMetric) : Metric :=
  constMetric (metric_Desc metric) (metric_Type metric)
              (metric_Value metric chr) [ClusterName chr].

Definition status_sample (st : clusterHealthStatusMetric)
    (chr : clusterHealthResponse) (color : string) : Metric :=
  constMetric (status_Desc st) (status_Type st) (status_Value st chr color)
              [ClusterName chr; color].

Definition op_metrics : list Metric :=
  [ownMetric own_up; ownMetric own_totalScrapes;
   ownMetric own_jsonParseFailures].

(** Channel items whose value compares equal to [v]. *)
Definition has_value (v : float64) (m : Metric) : bool :=
  match const_value m with
  | Some x => SFeqb x v
  | None => false
  end.

(** The status code an error text of the status check carries. *)
Definition status_of_error (e : error) : option int :=
  match strip_prefix "HTTP Request failed with code " e with
  | Some digits => atoi digits
  | None => None
  end.

(** Lower-casing of ASCII letters and removal of blanks, to speak of strings
    that differ in casing or whitespace only. *)
Definition lower (a : ascii) : ascii :=
  let n := nat_of_ascii a in
  if (Nat.leb 65 n && Nat.leb n 90)%bool then ascii_of_nat (n + 32) else a.

Definition blank (a : ascii) : bool :=
  let n := nat_of_ascii a in
  (Nat.eqb n 32 || Nat.eqb n 9 || Nat.eqb n 10 || Nat.eqb n 13)%bool.

Fixpoint fold_case_space (s : string) : string :=
  match s with
  | EmptyString => EmptyString
  | String a s' =>
      if blank a then fold_case_space s'
      else String (lower a) (fold_case_space s')
  end.

(** A transport error in the words of the specification, "the request
    cannot be sent or the connection fails": [client.Get] returns an error,
    or the connection is lost while the body of the response is read. *)
Inductive spec_TransportError : GetResult -> Prop :=
| request_not_sent (err : error) : spec_TransportError (GetErr err)
| connection_lost (res : Response) (bts : list byte) (err : error) :
    Body_ReadAll res = (bts, Some err) -> spec_TransportError (GetOk res).

(** ** The rest of a call: body, log, response *)

(** Whether [client.Get] came back with a response. *)
Definition answered (a : GetResult) : bool :=
  match a with GetOk _ => true | GetErr _ => false end.

(** The line the deferred function of a fetch logs: one when closing the body
    fails, none otherwise and none without a response. *)
Definition close_lines (a : GetResult) : list string :=
  match a with
  | GetOk res =>
      match Body_Close res with
      | Some e => ["msg:" ++ "failed to close http.Client" ++ "err:" ++ e]
      | None => []
      end
  | GetErr _ => []
  end.

(** The line Collect logs for the error of its fetch. *)
Definition failure_lines (err : option error) : list string :=
  match err with
  | Some e =>
      ["msg:" ++ "failed to fetch and decode cluster health" ++ "err:" ++ e]
  | None => []
  end.

(** The snapshot with another [TimedOut]. *)
Definition with_TimedOut (b : bool) (r : clusterHealthResponse)
    : clusterHealthResponse :=
  mkClusterHealthResponse (ClusterName r) (Status r) b
    (NumberOfNodes r) (NumberOfDataNodes r) (ActivePrimaryShards r)
    (ActiveShards r) (RelocatingShards r) (InitializingShards r)
    (UnassignedShards r) (DelayedUnassignedShards r) (NumberOfPendingTasks r)
    (NumberOfInFlightFetch r) (TaskMaxWaitingInQueueMillis r)
    (ActiveShardsPercentAsNumber r).

(** The integer fields of [clusterHealthResponse], with the JSON key each is
    tagged with and the projection that reads it. *)
Inductive IntField :=
| F_NumberOfNodes | F_NumberOfDataNodes | F_ActivePrimaryShards
| F_ActiveShards | F_RelocatingShards | F_InitializingShards
| F_UnassignedShards | F_DelayedUnassignedShards | F_NumberOfPendingTasks
| F_NumberOfInFlightFetch | F_TaskMaxWaitingInQueueMillis.

Definition all_IntFields : list IntField :=
  [F_NumberOfNodes; F_NumberOfDataNodes; F_ActivePrimaryShards;
   F_ActiveShards; F_RelocatingShards; F_InitializingShards;
   F_UnassignedShards; F_DelayedUnassignedShards; F_NumberOfPendingTasks;
   F_NumberOfInFlightFetch; F_TaskMaxWaitingInQueueMillis].

Definition json_key (f : IntField) : string :=
  match f with
  | F_NumberOfNodes => "number_of_nodes"
  | F_NumberOfDataNodes => "number_of_data_nodes"
  | F_ActivePrimaryShards => "active_primary_shards"
  | F_ActiveShards => "active_shards"
  | F_RelocatingShards => "relocating_shards"
  | F_InitializingShards => "initializing_shards"
  | F_UnassignedShards => "unassigned_shards"
  | F_DelayedUnassignedShards => "delayed_unassigned_shards"
  | F_NumberOfPendingTasks => "number_of_pending_tasks"
  | F_NumberOfInFlightFetch => "number_of_in_flight_fetch"
  | F_TaskMaxWaitingInQueueMillis => "task_max_waiting_in_queue_millis"
  end.

Definition read_field (f : IntField) (r : clusterHealthResponse) : int :=
  match f with
  | F_NumberOfNodes => NumberOfNodes r
  | F_NumberOfDataNodes => NumberOfDataNodes r
  | F_ActivePrimaryShards => ActivePrimaryShards r
  | F_ActiveShards => ActiveShards r
  | F_RelocatingShards => RelocatingShards r
  | F_InitializingShards => InitializingShards r
  | F_UnassignedShards => UnassignedShards r
  | F_DelayedUnassignedShards => DelayedUnassignedShards r
  | F_NumberOfPendingTasks => NumberOfPendingTasks r
  | F_NumberOfInFlightFetch => NumberOfInFlightFetch r
  | F_TaskMaxWaitingInQueueMillis => TaskMaxWaitingInQueueMillis r
  end.

Definition IntField_eq_dec (a b : IntField) : {a = b} + {a <> b}.
Proof. decide equality. Defined.

(** The label values of a channel item; the collector's own objects have
    none. *)
Definition Metric_labels (m : Metric) : list string :=
  match m with
  | constMetric _ _ _ ls => ls
  | ownMetric _ => []
  end.

(** The series an item belongs to: its fully qualified name and its label
    values.  A registry refuses a gathering in which two items share one. *)
Definition series (c : ClusterHealth) (m : Metric) : string * list string :=
  (fqName (Metric_Desc c m), Metric_labels m).

(** All descriptions of the collector are the ones [NewClusterHealth] builds
    under namespace [ns]. *)
Definition made_by (ns : string) (c : ClusterHealth) : Prop :=
  tables_of ns c
  /\ gaugeDesc (up c) = gaugeDesc (up (NewClusterHealth ns (url c)))
  /\ counterDesc (totalScrapes c)
     = counterDesc (totalScrapes (NewClusterHealth ns (url c)))
  /\ counterDesc (jsonParseFailures c)
     = counterDesc (jsonParseFailures (NewClusterHealth ns (url c))).

(** What a gathering writes out for a channel item: description, type, value
    and label values.  The collector's own objects are read when the
    gathering writes them, so they show the values the collector has then; a
    counter that has only seen [Inc] shows the number of those calls. *)
Record Sample := mkSample {
  sample_Desc : Desc;
  sample_Type : ValueType;
  sample_Value : float64;
  sample_Labels : list string
}.

Definition Write (c : ClusterHealth) (m : Metric) : Sample :=
  match m with
  | constMetric d t v ls => mkSample d t v ls
  | ownMetric own_up => mkSample (gaugeDesc (up c)) GaugeValue
                                 (gaugeVal (up c)) []
  | ownMetric own_totalScrapes =>
      mkSample (counterDesc (totalScrapes c)) CounterValue
               (float64_of_int (Z.of_nat (counterVal (totalScrapes c)))) []
  | ownMetric own_jsonParseFailures =>
      mkSample (counterDesc (jsonParseFailures c)) CounterValue
               (float64_of_int (Z.of_nat (counterVal (jsonParseFailures c))))
               []
  end.

(** [NewHandler]: the function it returns, on one request.  It makes a new
    registry and registers a new collector on the [url] pointer it was given;
    the handler of the export library then gathers the registry, which runs
    Collect once on a channel of its own and writes out what arrives.  The
    result lists the samples in the order they arrived on the channel; the
    library sorts them by name and label values before it writes them, so
    only what the list contains, not its order, is what the response shows.
    The [this] and [ch] of the state are, from here on, the collector and
    the channel of the request served last. *)
Definition NewHandler {R : Runtime} (Namespace : string)
    (network : nat -> string -> GetResult) (url : ptr) : M (list Sample) :=
  fun s =>
    let registered := NewClusterHealth Namespace url in
    let s1 := mkState registered (heap s) (requests s) (closed s)
                      (logged s) [] in
    let s2 := snd (Collect network s1) in
    (map (Write (this s2)) (ch s2), s2).

(** The requests of a row of [n] scrapes, oldest first. *)
Fixpoint scrapes {R : Runtime} (Namespace : string)
    (network : nat -> string -> GetResult) (url : ptr) (n : nat)
    : M (list (list Sample)) :=
  match n with
  | O => ret []
  | S n' =>
      r <- NewHandler Namespace network url ;;
      rs <- scrapes Namespace network url n' ;;
      ret (r :: rs)
  end.

(** ** Sample inputs *)

Module Sample.

(** A health document with three of its fields set, as JSON text. *)
Definition quoted (s : string) : string :=
  String (ascii_of_nat 34) (s ++ String (ascii_of_nat 34) "").

Definition document (name status primaries : string) : list byte :=
  list_byte_of_string
    ("{" ++ quoted "cluster_name" ++ ":" ++ quoted name ++ ","
     ++ quoted "status" ++ ":" ++ quoted status ++ ","
     ++ quoted "active_primary_shards" ++ ":" ++ primaries ++ "}").

Definition snapshot (name status : string) (primaries : int)
    : clusterHealthResponse :=
  mkClusterHealthResponse name status false 0 0 primaries 0 0 0 0 0 0 0 0 f0.

Definition yellow : clusterHealthResponse := snapshot "prod" "yellow" 12.
Definition Green : clusterHealthResponse := snapshot "prod" "Green" 12.

(** The same document with the percentage of active shards added. *)
Definition document_pct (name status primaries pct : string) : list byte :=
  list_byte_of_string
    ("{" ++ quoted "cluster_name" ++ ":" ++ quoted name ++ ","
     ++ quoted "status" ++ ":" ++ quoted status ++ ","
     ++ quoted "active_primary_shards" ++ ":" ++ primaries ++ ","
     ++ quoted "active_shards_percent_as_number" ++ ":" ++ pct ++ "}").

Definition yellow_half : clusterHealthResponse :=
  with_ActiveShardsPercentAsNumber (float64_of_int 50) yellow.

Definition body_empty : list byte := list_byte_of_string "{}".
Definition body_yellow_half : list byte :=
  document_pct "prod" "yellow" "12" "50".
Definition body_yellow : list byte := document "prod" "yellow" "12".
Definition body_Green : list byte := document "prod" "Green" "12".
Definition body_garbage : list byte := list_byte_of_string "<h1>".

Definition bytes_eqb (a b : list byte) : bool :=
  if list_eq_dec Byte.byte_eq_dec a b then true else false.

(** A decoder that knows four bodies: [{}], which leaves the struct as it
    is, and the three documents above; it rejects everything else. *)
Definition unmarshal (bts : list byte) (chr : clusterHealthResponse)
    : clusterHealthResponse * option error :=
  if bytes_eqb bts body_empty then (chr, None)
  else if bytes_eqb bts body_yellow then (yellow, None)
  else if bytes_eqb bts body_Green then (Green, None)
  else if bytes_eqb bts body_yellow_half then (yellow_half, None)
  else (chr, Some "invalid character '<' looking for beginning of value").

(** A runtime that joins the non-empty path elements with a slash and
    prints a URL as scheme, host and path. *)
Definition runtime : Runtime :=
  {| path_Join := fun l =>
       String.concat "/" (filter (fun e => negb (String.eqb e "")) l);
     URL_String := fun u => Scheme u ++ "://" ++ Host u ++ Path u;
     URL_Hostname := fun u => Host u;
     URL_Port := fun _ => "";
     json_Unmarshal := unmarshal |}.

Definition base : URL :=
  mkURL "http" "" None "localhost" "" "" false "" "".

Definition ok (body : list byte) : GetResult :=
  GetOk (mkResponse 200 (body, None) None).

(** Remote ends: one that always answers with a given result. *)
Definition always (a : GetResult) : nat -> string -> GetResult :=
  fun _ _ => a.

Definition unavailable : GetResult :=
  GetOk (mkResponse 503 (body_garbage, None) None).

Definition refused : GetResult := GetErr "connection refused".

(** A healthy answer whose body fails to close. *)
Definition ok_unclosed (body : list byte) : GetResult :=
  GetOk (mkResponse 200 (body, None) (Some "use of closed connection")).

Definition cut_short : GetResult :=
  GetOk (mkResponse 200 (list_byte_of_string "{", Some "unexpected EOF")
                    None).

(** A fresh collector in an otherwise empty state. *)
Definition start : State :=
  mkState (NewClusterHealth "pixiu" 0%nat) (fun _ => base) [] 0%nat [] [].

End Sample.

(** A second runtime, whose decoder also knows the yellow document with
    [timed_out] set. *)
Module Sample_timed_out.

Definition body_yellow : list byte :=
  list_byte_of_string
    ("{" ++ Sample.quoted "cluster_name" ++ ":" ++ Sample.quoted "prod" ++ ","
     ++ Sample.quoted "status" ++ ":" ++ Sample.quoted "yellow" ++ ","
     ++ Sample.quoted "timed_out" ++ ":true,"
     ++ Sample.quoted "active_primary_shards" ++ ":12}").

Definition unmarshal (bts : list byte) (chr : clusterHealthResponse)
    : clusterHealthResponse * option error :=
  if Sample.bytes_eqb bts body_yellow
  then (with_TimedOut true Sample.yellow, None)
  else Sample.unmarshal bts chr.

Definition runtime : Runtime :=
  {| path_Join := @path_Join Sample.runtime;
     URL_String := @URL_String Sample.runtime;
     URL_Hostname := @URL_Hostname Sample.runtime;
     URL_Port := @URL_Port Sample.runtime;
     json_Unmarshal := unmarshal |}.

End Sample_timed_out.

(** * Properties *)

Section Properties.

Context {R : Runtime}.
Variable network : nat -> string -> GetResult.

(** ** Running the loops *)

Lemma for_range_send {A} (g : A -> Metric) (l : list A) (s : State) :
  for_range l (fun x => send (g x)) s
  = (tt, mkState (this s) (heap s) (requests s) (closed s) (logged s)
                 (ch s ++ map g l)).
Proof.
  revert s. induction l as [|x l IH]; intros s.
  - simpl. unfold ret. rewrite app_nil_r. now destruct s.
  - simpl. unfold bind, send at 1. rewrite IH. simpl.
    now rewrite <- app_assoc.
Qed.

(** ** The fetch *)

Ltac run_fetch :=
  unfold fetched, fetchAndDecodeClusterHealth, answer, request_URL,
    client_Get, defer, bind, ret, get_this, load, close, modify_this,
    logger_Output in *;
  simpl in *.

(** A fetch returns no error exactly when the response has status 200 and a
    body that is read and decoded without error; the snapshot is then the
    decoder's. *)
Lemma fetched_ok (s : State) (chr : clusterHealthResponse) :
  fetched network s = (chr, None) <->
  exists res bts,
    answer network s = GetOk res /\ StatusCode res = StatusOK
    /\ Body_ReadAll res = (bts, None)
    /\ json_Unmarshal bts zero_clusterHealthResponse = (chr, None).
Proof.
  run_fetch. split.
  - destruct (network _ _) as [res|err]; [|discriminate].
    destruct (StatusCode res =? StatusOK) eqn:Hc; simpl;
      [|destruct (Body_Close res); discriminate].
    destruct (Body_ReadAll res) as [bts [e|]] eqn:Hb;
      [destruct (Body_Close res); discriminate|].
    destruct (json_Unmarshal bts zero_clusterHealthResponse)
      as [chr' [e|]] eqn:Hj;
      [destruct (Body_Close res); discriminate|].
    intros H. exists res, bts. apply Z.eqb_eq in Hc.
    destruct (Body_Close res); simpl in H; inversion H; subst; auto.
  - intros (res & bts & Ha & Hc & Hb & Hj). rewrite Ha.
    apply Z.eqb_eq in Hc. rewrite Hc. simpl. rewrite Hb, Hj.
    now destruct (Body_Close res).
Qed.

(** A fetch returns an error exactly in the cases of [fetch_failure]. *)
Lemma fetched_error (s : State) :
  fetch_failure network s <-> snd (fetched network s) <> None.
Proof.
  split.
  - intros [err Ha|res Ha Hc|res bts err Ha Hc Hb|res bts chr err Ha Hc Hb Hj];
      run_fetch; rewrite Ha.
    + simpl. discriminate.
    + apply Z.eqb_neq in Hc. rewrite Hc. simpl.
      destruct (Body_Close res); simpl; discriminate.
    + apply Z.eqb_eq in Hc. rewrite Hc. simpl. rewrite Hb.
      destruct (Body_Close res); simpl; discriminate.
    + apply Z.eqb_eq in Hc. rewrite Hc. simpl. rewrite Hb, Hj.
      destruct (Body_Close res); simpl; discriminate.
  - intros H.
    destruct (answer network s) as [res|err] eqn:Ha;
      [|now apply transport_error with err].
    destruct (Z.eq_dec (StatusCode res) StatusOK) as [Hc|Hc];
      [|now apply unexpected_status with res].
    destruct (Body_ReadAll res) as [bts [e|]] eqn:Hb;
      [now apply unreadable_body with res bts e|].
    destruct (json_Unmarshal bts zero_clusterHealthResponse)
      as [chr [e|]] eqn:Hj;
      [now apply undecodable_body with res bts chr e|].
    exfalso. apply H.
    assert (Hf : fetched network s = (chr, None))
      by (apply fetched_ok; now exists res, bts).
    now rewrite Hf.
Qed.

(** ** One Collect call *)

Ltac run_Collect :=
  unfold Collect, fetchAndDecodeClusterHealth, answer, request_URL,
    client_Get, defer, bind, ret, get_this, load, close, modify_this,
    logger_Output in *;
  simpl in *.

(** The state a Collect call ends in when its fetch succeeds. *)
Lemma Collect_healthy (s : State) (chr : clusterHealthResponse) :
  fetched network s = (chr, None) ->
  let s' := snd (Collect network s) in
  this s'
  = with_up (Gauge_Set f1 (up (this s)))
      (with_totalScrapes (Counter_Inc (totalScrapes (this s))) (this s))
  /\ ch s'
     = (ch s ++ map (field_sample chr) (metrics (this s))
        ++ map (status_sample (statusMetric (this s)) chr) colors
        ++ op_metrics)%list
  /\ heap s' = heap s
  /\ requests s' = (requests s ++ [request_URL s])%list.
Proof.
  intros H. apply fetched_ok in H.
  destruct H as (res & bts & Ha & Hc & Hb & Hj).
  apply Z.eqb_eq in Hc. run_Collect. rewrite Ha, Hc. simpl.
  rewrite Hb, Hj.
  destruct (Body_Close res); simpl; rewrite for_range_send; simpl.
  all: repeat rewrite <- app_assoc; simpl; repeat split; reflexivity.
Qed.

Ltac finish :=
  repeat rewrite <- app_assoc; simpl; repeat split; reflexivity.

(** The state a Collect call ends in when its fetch fails. *)
Lemma Collect_unreachable (s : State) :
  fetch_failure network s ->
  let s' := snd (Collect network s) in
  up (this s') = Gauge_Set f0 (up (this s))
  /\ totalScrapes (this s') = Counter_Inc (totalScrapes (this s))
  /\ ch s' = (ch s ++ op_metrics)%list
  /\ (url (this s') = url (this s)
      /\ metrics (this s') = metrics (this s)
      /\ statusMetric (this s') = statusMetric (this s)
      /\ counterDesc (jsonParseFailures (this s'))
         = counterDesc (jsonParseFailures (this s)))
  /\ heap s' = heap s
  /\ requests s' = (requests s ++ [request_URL s])%list.
Proof.
  intros [err Ha|res Ha Hc|res bts err Ha Hc Hb|res bts chr err Ha Hc Hb Hj];
    run_Collect; rewrite Ha.
  - simpl. finish.
  - apply Z.eqb_neq in Hc. rewrite Hc. simpl.
    destruct (Body_Close res); simpl; finish.
  - apply Z.eqb_eq in Hc. rewrite Hc. simpl. rewrite Hb.
    destruct (Body_Close res); simpl; finish.
  - apply Z.eqb_eq in Hc. rewrite Hc. simpl. rewrite Hb, Hj.
    destruct (Body_Close res); simpl; finish.
Qed.

(** Every fetch either succeeds or fails in one of the listed ways. *)
Lemma fetch_cases (s : State) :
  (exists chr, fetched network s = (chr, None)) \/ fetch_failure network s.
Proof.
  destruct (fetched network s) as [chr [e|]] eqn:H.
  - right. apply fetched_error. rewrite H. discriminate.
  - left. now exists chr.
Qed.

(** What no Collect call changes, and what every call does. *)
Lemma Collect_frame (s : State) :
  let s' := snd (Collect network s) in
  url (this s') = url (this s)
  /\ metrics (this s') = metrics (this s)
  /\ statusMetric (this s') = statusMetric (this s)
  /\ gaugeDesc (up (this s')) = gaugeDesc (up (this s))
  /\ counterDesc (jsonParseFailures (this s'))
     = counterDesc (jsonParseFailures (this s))
  /\ totalScrapes (this s') = Counter_Inc (totalScrapes (this s))
  /\ heap s' = heap s
  /\ requests s' = (requests s ++ [request_URL s])%list.
Proof.
  destruct (fetch_cases s) as [[chr H]|H].
  - destruct (Collect_healthy s chr H) as (Ht & _ & Hh & Hr).
    cbv zeta. rewrite Ht, Hh, Hr. simpl. repeat split; auto.
  - destruct (Collect_unreachable s H)
      as (Hu & Ht & _ & (H1 & H2 & H3 & H4) & Hh & Hr).
    cbv zeta. rewrite Hu, Ht, Hh, Hr, H1, H2, H3, H4. simpl.
    repeat split; auto.
Qed.

(** ** Telling samples apart by their description *)

Lemma Desc_eqb_refl (d : Desc) : Desc_eqb d d = true.
Proof. unfold Desc_eqb. now destruct (Desc_eq_dec d d). Qed.

Lemma Desc_eqb_labels (a b : Desc) :
  variableLabels a <> variableLabels b -> Desc_eqb a b = false.
Proof.
  intros H. unfold Desc_eqb.
  destruct (Desc_eq_dec a b) as [E|]; [|reflexivity].
  now subst.
Qed.

Lemma filter_map_all {A B} (p : B -> bool) (g : A -> B) (l : list A) :
  (forall x, In x l -> p (g x) = true) -> filter p (map g l) = map g l.
Proof.
  induction l as [|x l IH]; intros H; simpl; [reflexivity|].
  rewrite (H x (or_introl eq_refl)). f_equal.
  apply IH. intros y Hy. apply H. now right.
Qed.

Lemma filter_map_none {A B} (p : B -> bool) (g : A -> B) (l : list A) :
  (forall x, In x l -> p (g x) = false) -> filter p (map g l) = [].
Proof.
  induction l as [|x l IH]; intros H; simpl; [reflexivity|].
  rewrite (H x (or_introl eq_refl)).
  apply IH. intros y Hy. apply H. now right.
Qed.

Lemma emitted_app (s s' : State) (l : list Metric) :
  ch s' = (ch s ++ l)%list -> emitted s s' = l.
Proof.
  intros H. unfold emitted. rewrite H, skipn_app, skipn_all, Nat.sub_diag.
  reflexivity.
Qed.

(** Every entry of the table is labelled by the cluster alone, the status
    metric by cluster and colour. *)
Lemma table_labels (ns : string) (p : ptr) :
  Forall (fun m => variableLabels (metric_Desc m)
                   = defaultClusterHealthLabels)
         (metrics (NewClusterHealth ns p)).
Proof. simpl. repeat constructor. Qed.

Lemma field_not_status (ns : string) (c : ClusterHealth)
    (m : clusterHealthMetric) :
  tables_of ns c -> In m (metrics c) ->
  Desc_eqb (metric_Desc m) (status_Desc (statusMetric c)) = false
  /\ Desc_eqb (status_Desc (statusMetric c)) (metric_Desc m) = false.
Proof.
  intros [Hm Hs] Hin. rewrite Hm in Hin. rewrite Hs.
  pose proof (table_labels ns (url c)) as F.
  rewrite Forall_forall in F. specialize (F m Hin).
  split; apply Desc_eqb_labels; rewrite F; simpl; discriminate.
Qed.

Lemma existsb_self (d : Desc) (ds : list Desc) :
  In d ds -> existsb (Desc_eqb d) ds = true.
Proof.
  intros H. apply existsb_exists. exists d. split; [assumption|].
  apply Desc_eqb_refl.
Qed.

Lemma status_not_in_table (ns : string) (c : ClusterHealth) :
  tables_of ns c ->
  existsb (Desc_eqb (status_Desc (statusMetric c)))
          (map metric_Desc (metrics c)) = false.
Proof.
  intros T. destruct (existsb _ _) eqn:E; [|reflexivity].
  apply existsb_exists in E. destruct E as (d & Hd & He).
  apply in_map_iff in Hd. destruct Hd as (m & <- & Hm).
  destruct (field_not_status ns c m T Hm) as [_ H]. congruence.
Qed.

(** The field samples and the status samples among what a successful
    Collect call emits. *)
Lemma healthy_field_samples (ns : string) (c : ClusterHealth)
    (chr : clusterHealthResponse) :
  tables_of ns c ->
  samples_in (map metric_Desc (metrics c))
    (map (field_sample chr) (metrics c)
     ++ map (status_sample (statusMetric c) chr) colors ++ op_metrics)
  = map (field_sample chr) (metrics c).
Proof.
  intros T. unfold samples_in. rewrite filter_app, filter_map_all.
  - simpl. rewrite (status_not_in_table ns c T). apply app_nil_r.
  - intros m Hm. simpl. apply existsb_self. now apply in_map.
Qed.

Lemma healthy_status_samples (ns : string) (c : ClusterHealth)
    (chr : clusterHealthResponse) :
  tables_of ns c ->
  samples_of (status_Desc (statusMetric c))
    (map (field_sample chr) (metrics c)
     ++ map (status_sample (statusMetric c) chr) colors ++ op_metrics)
  = map (status_sample (statusMetric c) chr) colors.
Proof.
  intros T. unfold samples_of. rewrite filter_app, filter_map_none.
  - simpl. now rewrite Desc_eqb_refl.
  - intros m Hm. simpl. now destruct (field_not_status ns c m T Hm).
Qed.

(** ** The claims about Collect *)

(** C5: every Collect call, whatever its fetch does, leaves [totalScrapes]
    incremented once: the counter is its old value after one [Inc], one
    more than before. *)
Theorem Collect_totalScrapes_once (s : State) :
  totalScrapes (this (snd (Collect network s)))
  = Counter_Inc (totalScrapes (this s))
  /\ counterVal (totalScrapes (this (snd (Collect network s))))
     = S (counterVal (totalScrapes (this s))).
Proof.
  destruct (Collect_frame s) as (_ & _ & _ & _ & _ & Ht & _).
  rewrite Ht. split; reflexivity.
Qed.

(** C2: a Collect call whose fetch fails (no response, a status other than
    200, or a body that cannot be read or decoded) emits the three
    operational metrics and nothing else, hence no field sample and no
    status sample; it leaves [up] at 0 and [totalScrapes] incremented
    once. *)
Theorem Collect_failed_fetch (s : State) :
  fetch_failure network s ->
  let s' := snd (Collect network s) in
  emitted s s' = op_metrics
  /\ samples_in (map metric_Desc (metrics (this s))) (emitted s s') = []
  /\ samples_of (status_Desc (statusMetric (this s))) (emitted s s') = []
  /\ gaugeVal (up (this s')) = f0
  /\ counterVal (totalScrapes (this s'))
     = S (counterVal (totalScrapes (this s))).
Proof.
  intros H s'.
  destruct (Collect_unreachable s H) as (Hu & Ht & Hc & _).
  fold s' in Hu, Ht, Hc.
  rewrite (emitted_app s s' op_metrics Hc), Hu, Ht.
  repeat split; reflexivity.
Qed.

(** C4: a Collect call whose fetch succeeds with snapshot [chr] leaves [up]
    at 1 and emits one field sample per entry of the table, in table order:
    the entry's description and type, the entry's function applied to
    [chr] as value, and the cluster name of [chr] as only label value. *)
Theorem Collect_field_samples (ns : string) (s : State)
    (chr : clusterHealthResponse) :
  tables_of ns (this s) ->
  fetched network s = (chr, None) ->
  let s' := snd (Collect network s) in
  let fs := samples_in (map metric_Desc (metrics (this s))) (emitted s s') in
  gaugeVal (up (this s')) = f1
  /\ fs = map (fun metric =>
                 constMetric (metric_Desc metric) (metric_Type metric)
                   (metric_Value metric chr) [ClusterName chr])
              (metrics (this s))
  /\ List.length fs = List.length (metrics (this s))
  /\ Forall (fun m => labels_fit m = true) fs.
Proof.
  intros T H s' fs.
  destruct (Collect_healthy s chr H) as (Ht & Hc & _).
  fold s' in Ht, Hc.
  assert (E : fs = map (field_sample chr) (metrics (this s))).
  { unfold fs. rewrite (emitted_app s s' _ Hc).
    now apply healthy_field_samples with ns. }
  rewrite E, Ht. repeat split.
  - now rewrite length_map.
  - destruct T as [Tm _]. rewrite Tm. simpl. repeat constructor.
Qed.

(** C1: a Collect call whose fetch succeeds with snapshot [chr] emits three
    status samples, one per colour in the order green, yellow, red; the
    sample of a colour has value 1 when the status of [chr] is that colour
    and 0 otherwise.  So one sample is 1 and two are 0 when the status is
    one of the colours, and all three are 0 when it is none of them. *)
Theorem Collect_status_one_hot (ns : string) (s : State)
    (chr : clusterHealthResponse) :
  tables_of ns (this s) ->
  fetched network s = (chr, None) ->
  let s' := snd (Collect network s) in
  let d := status_Desc (statusMetric (this s)) in
  let st := samples_of d (emitted s s') in
  st = map (fun color =>
              constMetric d GaugeValue
                (if String.eqb (Status chr) color then f1 else f0)
                [ClusterName chr; color])
           colors
  /\ List.length st = 3%nat
  /\ (In (Status chr) colors ->
      List.length (filter (has_value f1) st) = 1%nat
      /\ List.length (filter (has_value f0) st) = 2%nat)
  /\ (~ In (Status chr) colors ->
      filter (has_value f1) st = [] /\ filter (has_value f0) st = st).
Proof.
  intros T H s' d st.
  destruct (Collect_healthy s chr H) as (_ & Hc & _).
  fold s' in Hc.
  assert (E : st = map (status_sample (statusMetric (this s)) chr) colors).
  { unfold st, d. rewrite (emitted_app s s' _ Hc).
    now apply healthy_status_samples with ns. }
  rewrite E. unfold d. destruct T as [_ Ts]. rewrite Ts.
  unfold status_sample. simpl.
  split; [reflexivity|]. split; [reflexivity|]. split.
  - intros [G|[Y|[Rd|[]]]]; rewrite <- G || rewrite <- Y || rewrite <- Rd;
      simpl; split; reflexivity.
  - intros N.
    assert (G : String.eqb (Status chr) "green" = false)
      by (apply String.eqb_neq; intros E'; apply N; rewrite E'; simpl; auto).
    assert (Y : String.eqb (Status chr) "yellow" = false)
      by (apply String.eqb_neq; intros E'; apply N; rewrite E'; simpl; auto).
    assert (Rd : String.eqb (Status chr) "red" = false)
      by (apply String.eqb_neq; intros E'; apply N; rewrite E'; simpl; auto).
    rewrite G, Y, Rd. simpl. split; reflexivity.
Qed.

(** ** The claims about the fetch *)

Lemma atoi_itoa (n : int) : atoi (itoa n) = Some n.
Proof.
  unfold atoi, itoa. rewrite NilZero.isi.
  - simpl. now rewrite DecimalZ.of_to.
  - destruct n; simpl; try discriminate;
      intros E; injection E; apply DecimalPos.Unsigned.to_uint_nonnil.
  - destruct n; simpl; try discriminate;
      intros E; injection E; apply DecimalPos.Unsigned.to_uint_nonnil.
Qed.

Lemma strip_prefix_app (p r : string) : strip_prefix p (p ++ r) = Some r.
Proof.
  induction p as [|a p IH]; simpl; [reflexivity|].
  now rewrite Ascii.eqb_refl.
Qed.

(** What a fetch leaves alone: the receiver but for [jsonParseFailures],
    the heap and the channel; it adds its one request to [requests]. *)
Lemma fetch_frame (s : State) :
  let s' := snd (fetchAndDecodeClusterHealth network s) in
  (this s' = this s
   \/ this s' = with_jsonParseFailures
                  (Counter_Inc (jsonParseFailures (this s))) (this s))
  /\ heap s' = heap s
  /\ ch s' = ch s
  /\ requests s' = (requests s ++ [request_URL s])%list.
Proof.
  run_fetch. destruct (network _ _) as [res|err]; simpl; [|now auto 6].
  destruct (StatusCode res =? StatusOK); simpl;
    [|destruct (Body_Close res); simpl; now auto 6].
  destruct (Body_ReadAll res) as [bts [e|]];
    [destruct (Body_Close res); simpl; now auto 6|].
  destruct (json_Unmarshal bts zero_clusterHealthResponse) as [chr [e|]];
    destruct (Body_Close res); simpl; now auto 6.
Qed.

(** C7: when the request is answered and the status code of the response is
    not 200, the fetch returns an error whose text ends in the decimal
    status code, so that the code can be read back from the error. *)
Theorem fetch_unexpected_status (s : State) (res : Response) :
  answer network s = GetOk res ->
  StatusCode res <> StatusOK ->
  let err := "HTTP Request failed with code " ++ itoa (StatusCode res) in
  fetched network s = (zero_clusterHealthResponse, Some err)
  /\ status_of_error err = Some (StatusCode res).
Proof.
  intros Ha Hc err. split.
  - run_fetch. rewrite Ha. apply Z.eqb_neq in Hc. rewrite Hc. simpl.
    now destruct (Body_Close res).
  - unfold status_of_error, err. rewrite strip_prefix_app.
    apply atoi_itoa.
Qed.

(** C3, amended: a fetch increments [jsonParseFailures] once when the
    response has status 200 and a body that the decoder rejects or that
    cannot be read to its end; it leaves the counter as it was when
    [client.Get] returns an error, when the status code is not 200, and when
    the fetch succeeds. *)
Theorem fetch_jsonParseFailures (s : State) :
  let before := jsonParseFailures (this s) in
  let after :=
    jsonParseFailures (this (snd (fetchAndDecodeClusterHealth network s))) in
  (forall res bts chr err,
      answer network s = GetOk res -> StatusCode res = StatusOK ->
      Body_ReadAll res = (bts, None) ->
      json_Unmarshal bts zero_clusterHealthResponse = (chr, Some err) ->
      after = Counter_Inc before
      /\ counterVal after = S (counterVal before))
  /\ (forall res bts err,
        answer network s = GetOk res -> StatusCode res = StatusOK ->
        Body_ReadAll res = (bts, Some err) ->
        after = Counter_Inc before
        /\ counterVal after = S (counterVal before))
  /\ (forall err, answer network s = GetErr err -> after = before)
  /\ (forall res,
        answer network s = GetOk res -> StatusCode res <> StatusOK ->
        after = before)
  /\ (forall chr, fetched network s = (chr, None) -> after = before).
Proof.
  cbv zeta. split; [|split; [|split; [|split]]].
  - intros res bts chr err Ha Hc Hb Hj.
    run_fetch. rewrite Ha. apply Z.eqb_eq in Hc. rewrite Hc. simpl.
    rewrite Hb, Hj. now destruct (Body_Close res).
  - intros res bts err Ha Hc Hb.
    run_fetch. rewrite Ha. apply Z.eqb_eq in Hc. rewrite Hc. simpl.
    rewrite Hb. now destruct (Body_Close res).
  - intros err Ha. run_fetch. now rewrite Ha.
  - intros res Ha Hc. run_fetch. rewrite Ha. apply Z.eqb_neq in Hc.
    rewrite Hc. simpl. now destruct (Body_Close res).
  - intros chr H. apply fetched_ok in H.
    destruct H as (res & bts & Ha & Hc & Hb & Hj).
    run_fetch. rewrite Ha. apply Z.eqb_eq in Hc. rewrite Hc. simpl.
    rewrite Hb, Hj. now destruct (Body_Close res).
Qed.

(** A body that cannot be read to its end counts as a parse failure too. *)
Lemma fetch_unreadable_body (s : State) (res : Response) (bts : list byte)
    (err : error) :
  answer network s = GetOk res -> StatusCode res = StatusOK ->
  Body_ReadAll res = (bts, Some err) ->
  jsonParseFailures (this (snd (fetchAndDecodeClusterHealth network s)))
  = Counter_Inc (jsonParseFailures (this s)).
Proof.
  intros Ha Hc Hb. run_fetch. rewrite Ha. apply Z.eqb_eq in Hc.
  rewrite Hc. simpl. rewrite Hb. now destruct (Body_Close res).
Qed.

Lemma request_URL_ext (s s' : State) :
  url (this s') = url (this s) -> heap s' = heap s ->
  request_URL s' = request_URL s.
Proof. intros Hu Hh. unfold request_URL. now rewrite Hu, Hh. Qed.

Lemma times_Collect_requests (n : nat) (s : State) :
  let s' := snd (times n (Collect network) s) in
  url (this s') = url (this s)
  /\ heap s' = heap s
  /\ requests s' = (requests s ++ repeat (request_URL s) n)%list.
Proof.
  revert s. induction n as [|n IH]; intros s; simpl.
  - unfold ret. simpl. now rewrite app_nil_r.
  - unfold bind. destruct (Collect network s) as [[] s1] eqn:E.
    destruct (Collect_frame s) as (Hu & _ & _ & _ & _ & _ & Hh & Hr).
    rewrite E in Hu, Hh, Hr. simpl in Hu, Hh, Hr.
    destruct (IH s1) as (Hu' & Hh' & Hr').
    rewrite Hu', Hh', Hr', Hu, Hh, Hr.
    rewrite (request_URL_ext s s1 Hu Hh), <- app_assoc.
    repeat split; reflexivity.
Qed.

(** C10: a fetch changes neither the pointer in the collector's [url] field
    nor any [url.URL] on the heap: the path is joined on a copy.  The
    request it makes is for the base URL with [/_cluster/health] joined to
    its path, and any number of Collect calls in a row ask for that same
    URL, once each. *)
Theorem fetch_keeps_url (s : State) :
  let s' := snd (fetchAndDecodeClusterHealth network s) in
  let u := heap s (url (this s)) in
  url (this s') = url (this s)
  /\ heap s' = heap s
  /\ requests s'
     = (requests s
        ++ [URL_String
              (with_Path (path_Join [Path u; "/_cluster/health"]) u)])%list
  /\ forall n,
       requests (snd (times n (Collect network) s))
       = (requests s
          ++ repeat
               (URL_String
                  (with_Path (path_Join [Path u; "/_cluster/health"]) u))
               n)%list.
Proof.
  cbv zeta. destruct (fetch_frame s) as (Ht & Hh & _ & Hr).
  repeat split; try assumption.
  - destruct Ht as [-> | ->]; reflexivity.
  - intros n. now destruct (times_Collect_requests n s) as (_ & _ & Hn).
Qed.

(** ** The table and the descriptions *)

Lemma times_Collect_Describe (n : nat) (s : State) :
  Describe (this (snd (times n (Collect network) s))) = Describe (this s).
Proof.
  revert s. induction n as [|n IH]; intros s; simpl; [reflexivity|].
  unfold bind. destruct (Collect network s) as [[] s1] eqn:E.
  rewrite IH.
  destruct (Collect_frame s) as (_ & Hm & Hs & Hg & Hj & Ht & _).
  rewrite E in Hm, Hs, Hg, Hj, Ht. simpl in Hm, Hs, Hg, Hj, Ht.
  unfold Describe. now rewrite Hm, Hs, Hg, Hj, Ht.
Qed.

(** Whatever a Collect call emits is described by Describe. *)
Lemma Collect_described (s : State) :
  let s' := snd (Collect network s) in
  Forall (fun m => In (Metric_Desc (this s') m) (Describe (this s)))
         (emitted s s').
Proof.
  intros s'.
  destruct (Collect_frame s) as (_ & _ & _ & Hg & Hj & Ht & _).
  fold s' in Hg, Hj, Ht.
  assert (O : Forall (fun m => In (Metric_Desc (this s') m)
                                  (Describe (this s))) op_metrics).
  { unfold op_metrics, Describe.
    repeat constructor; simpl; rewrite ?Hg, ?Hj, ?Ht; simpl;
      rewrite !in_app_iff; simpl; auto 8. }
  destruct (fetch_cases s) as [[chr H]|H].
  - destruct (Collect_healthy s chr H) as (_ & Hc & _). fold s' in Hc.
    rewrite (emitted_app s s' _ Hc).
    apply Forall_app. split; [|apply Forall_app; split; [|exact O]].
    + apply Forall_forall. intros m Hm. apply in_map_iff in Hm.
      destruct Hm as (x & <- & Hx). simpl. unfold Describe.
      apply in_or_app. left. now apply in_map.
    + unfold Describe. simpl.
      repeat constructor; simpl; rewrite !in_app_iff; simpl; auto.
  - destruct (Collect_unreachable s H) as (_ & _ & Hc & _). fold s' in Hc.
    now rewrite (emitted_app s s' _ Hc).
Qed.

(** C6: Describe sends one description per entry of the table, then the
    one of the status metric, then those of [up], [totalScrapes] and
    [jsonParseFailures]: fifteen for a collector made by
    [NewClusterHealth].  It reads nothing a fetch writes: after any number
    of Collect calls, however their fetches went, it sends the same list;
    and the list is full: whatever a Collect call emits has its description
    in it. *)
Theorem Describe_full (ns : string) (p : ptr) (c : ClusterHealth)
    (n : nat) (s : State) :
  Describe c
  = (map metric_Desc (metrics c)
     ++ [status_Desc (statusMetric c); gaugeDesc (up c);
         counterDesc (totalScrapes c);
         counterDesc (jsonParseFailures c)])%list
  /\ List.length (Describe c) = (List.length (metrics c) + 1 + 3)%nat
  /\ List.length (Describe (NewClusterHealth ns p)) = 15%nat
  /\ Describe (this (snd (times n (Collect network) s)))
     = Describe (this s)
  /\ Forall (fun m => In (Metric_Desc (this (snd (Collect network s))) m)
                         (Describe (this s)))
            (emitted s (snd (Collect network s))).
Proof.
  split; [reflexivity|]. split; [|split; [reflexivity|split]].
  - unfold Describe. repeat rewrite length_app. rewrite length_map.
    simpl. lia.
  - apply times_Collect_Describe.
  - apply Collect_described.
Qed.

Lemma fold_case_space_colors (c : string) :
  In c colors -> fold_case_space c = c.
Proof. intros [<-|[<-|[<-|[]]]]; reflexivity. Qed.

(** C9: the status value compares strings byte for byte.  When the status
    of a snapshot turns into the colour [color] once upper case is lowered
    and blanks are dropped, without being that colour as it stands, the
    status value of the snapshot is 0 for [color] and for every other
    colour. *)
Theorem status_value_exact (ns : string) (p : ptr)
    (chr : clusterHealthResponse) (color : string) :
  In color colors ->
  fold_case_space (Status chr) = color ->
  Status chr <> color ->
  let v := status_Value (statusMetric (NewClusterHealth ns p)) chr in
  v color = f0 /\ map v colors = [f0; f0; f0].
Proof.
  intros Hin Hf Hne v.
  assert (N : forall c, In c colors -> String.eqb (Status chr) c = false).
  { intros c Hc. apply String.eqb_neq. intros E. apply Hne.
    rewrite <- Hf, E. symmetry. now apply fold_case_space_colors. }
  unfold v. simpl. split.
  - now rewrite (N color Hin).
  - rewrite !N; simpl; auto.
Qed.

End Properties.

(** ** A field that is decoded and never emitted *)

Section Percent.

Context {R : Runtime}.

Lemma table_ignores_percent (ns : string) (p : ptr) (pct : float64)
    (chr : clusterHealthResponse) :
  let c := NewClusterHealth ns p in
  let chr' := with_ActiveShardsPercentAsNumber pct chr in
  map (field_sample chr') (metrics c) = map (field_sample chr) (metrics c)
  /\ map (status_sample (statusMetric c) chr') colors
     = map (status_sample (statusMetric c) chr) colors.
Proof. split; reflexivity. Qed.

(** C8: the table has eleven entries, none of which reads
    [ActiveShardsPercentAsNumber]: two successful Collect calls from the
    same state whose snapshots differ in that field alone emit the same
    items, and every entry gives either snapshot the same value. *)
Theorem percent_never_emitted (ns : string) (p : ptr)
    (network network' : nat -> string -> GetResult) (s : State)
    (chr : clusterHealthResponse) (pct : float64) :
  tables_of ns (this s) ->
  fetched network s = (chr, None) ->
  fetched network' s = (with_ActiveShardsPercentAsNumber pct chr, None) ->
  List.length (metrics (NewClusterHealth ns p)) = 11%nat
  /\ List.length (metrics (this s)) = 11%nat
  /\ map (fun metric =>
            metric_Value metric (with_ActiveShardsPercentAsNumber pct chr))
         (metrics (this s))
     = map (fun metric => metric_Value metric chr) (metrics (this s))
  /\ emitted s (snd (Collect network' s))
     = emitted s (snd (Collect network s)).
Proof.
  intros T H H'. split; [reflexivity|].
  destruct (Collect_healthy network s chr H) as (_ & Hc & _).
  destruct (Collect_healthy network' s _ H') as (_ & Hc' & _).
  rewrite (emitted_app _ _ _ Hc), (emitted_app _ _ _ Hc').
  destruct T as [Tm Ts]. rewrite Tm, Ts.
  repeat split; reflexivity.
Qed.

End Percent.

(** * The properties on sample inputs *)

(** A healthy yellow cluster: the status samples are 0, 1, 0. *)
Lemma Collect_status_one_hot_yellow :
  tables_of "pixiu" (this Sample.start)
  /\ @fetched Sample.runtime (Sample.always (Sample.ok Sample.body_yellow))
       Sample.start
     = (Sample.yellow, None)
  /\ map const_value
       (samples_of (status_Desc (statusMetric (this Sample.start)))
          (emitted Sample.start
             (snd (@Collect Sample.runtime
                     (Sample.always (Sample.ok Sample.body_yellow))
                     Sample.start))))
     = [Some f0; Some f1; Some f0].
Proof.
  assert (T : tables_of "pixiu" (this Sample.start))
    by (split; reflexivity).
  assert (F : @fetched Sample.runtime
                (Sample.always (Sample.ok Sample.body_yellow)) Sample.start
              = (Sample.yellow, None))
    by reflexivity.
  split; [exact T|]. split; [exact F|].
  destruct (@Collect_status_one_hot Sample.runtime
              (Sample.always (Sample.ok Sample.body_yellow))
              "pixiu" Sample.start Sample.yellow T F) as [E _].
  rewrite E. reflexivity.
Defined.

(** The same scrape emits eleven field samples, the first with value 12. *)
Lemma Collect_field_samples_yellow :
  tables_of "pixiu" (this Sample.start)
  /\ @fetched Sample.runtime (Sample.always (Sample.ok Sample.body_yellow))
       Sample.start
     = (Sample.yellow, None)
  /\ List.length
       (samples_in (map metric_Desc (metrics (this Sample.start)))
          (emitted Sample.start
             (snd (@Collect Sample.runtime
                     (Sample.always (Sample.ok Sample.body_yellow))
                     Sample.start))))
     = 11%nat.
Proof.
  assert (T : tables_of "pixiu" (this Sample.start))
    by (split; reflexivity).
  assert (F : @fetched Sample.runtime
                (Sample.always (Sample.ok Sample.body_yellow)) Sample.start
              = (Sample.yellow, None))
    by reflexivity.
  split; [exact T|]. split; [exact F|].
  destruct (@Collect_field_samples Sample.runtime
              (Sample.always (Sample.ok Sample.body_yellow))
              "pixiu" Sample.start Sample.yellow T F) as (_ & _ & L & _).
  rewrite L. reflexivity.
Defined.

(** A 503 from upstream: only the operational metrics, with [up] at 0. *)
Lemma Collect_failed_fetch_503 :
  @fetch_failure Sample.runtime (Sample.always Sample.unavailable)
    Sample.start
  /\ emitted Sample.start
       (snd (@Collect Sample.runtime (Sample.always Sample.unavailable)
               Sample.start))
     = op_metrics
  /\ gaugeVal
       (up (this (snd (@Collect Sample.runtime
                         (Sample.always Sample.unavailable) Sample.start))))
     = f0.
Proof.
  assert (F : @fetch_failure Sample.runtime
                (Sample.always Sample.unavailable) Sample.start).
  { apply unexpected_status with (mkResponse 503 (Sample.body_garbage, None) None).
    - reflexivity.
    - simpl. unfold StatusOK. lia. }
  split; [exact F|].
  destruct (@Collect_failed_fetch Sample.runtime
              (Sample.always Sample.unavailable) Sample.start F)
    as (E & _ & _ & U & _).
  split; [exact E|exact U].
Defined.

(** A 503 from upstream: the error text carries 503. *)
Lemma fetch_unexpected_status_503 :
  @answer Sample.runtime (Sample.always Sample.unavailable) Sample.start
  = GetOk (mkResponse 503 (Sample.body_garbage, None) None)
  /\ 503 <> StatusOK
  /\ snd (@fetched Sample.runtime (Sample.always Sample.unavailable)
            Sample.start)
     = Some "HTTP Request failed with code 503".
Proof.
  assert (A : @answer Sample.runtime (Sample.always Sample.unavailable)
                Sample.start
              = GetOk (mkResponse 503 (Sample.body_garbage, None) None))
    by reflexivity.
  assert (N : StatusCode (mkResponse 503 (Sample.body_garbage, None) None)
              <> StatusOK)
    by (simpl; unfold StatusOK; lia).
  split; [exact A|]. split; [exact N|].
  destruct (@fetch_unexpected_status Sample.runtime
              (Sample.always Sample.unavailable) Sample.start _ A N)
    as [E _].
  rewrite E. reflexivity.
Defined.

(** A body that is no JSON counts once, and so does a body cut short; a
    refused connection and a 503 do not count. *)
Lemma fetch_jsonParseFailures_samples :
  counterVal
    (jsonParseFailures
       (this (snd (@fetchAndDecodeClusterHealth Sample.runtime
                     (Sample.always (Sample.ok Sample.body_garbage))
                     Sample.start))))
  = 1%nat
  /\ counterVal
       (jsonParseFailures
          (this (snd (@fetchAndDecodeClusterHealth Sample.runtime
                        (Sample.always Sample.cut_short) Sample.start))))
     = 1%nat
  /\ counterVal
       (jsonParseFailures
          (this (snd (@fetchAndDecodeClusterHealth Sample.runtime
                        (Sample.always Sample.refused) Sample.start))))
     = 0%nat
  /\ counterVal
       (jsonParseFailures
          (this (snd (@fetchAndDecodeClusterHealth Sample.runtime
                        (Sample.always Sample.unavailable) Sample.start))))
     = 0%nat.
Proof.
  split; [|split; [|split]].
  - destruct (@fetch_jsonParseFailures Sample.runtime
                (Sample.always (Sample.ok Sample.body_garbage)) Sample.start)
      as (H & _).
    destruct (H (mkResponse 200 (Sample.body_garbage, None) None)
                Sample.body_garbage zero_clusterHealthResponse
                "invalid character '<' looking for beginning of value"
                eq_refl eq_refl eq_refl eq_refl) as [_ E].
    rewrite E. reflexivity.
  - destruct (@fetch_jsonParseFailures Sample.runtime
                (Sample.always Sample.cut_short) Sample.start)
      as (_ & H & _).
    destruct (H (mkResponse 200 (list_byte_of_string "{",
                                 Some "unexpected EOF") None)
                (list_byte_of_string "{") "unexpected EOF"
                eq_refl eq_refl eq_refl) as [_ E].
    rewrite E. reflexivity.
  - destruct (@fetch_jsonParseFailures Sample.runtime
                (Sample.always Sample.refused) Sample.start)
      as (_ & _ & H & _).
    rewrite (H "connection refused" eq_refl). reflexivity.
  - destruct (@fetch_jsonParseFailures Sample.runtime
                (Sample.always Sample.unavailable) Sample.start)
      as (_ & _ & _ & H & _).
    rewrite (H (mkResponse 503 (Sample.body_garbage, None) None) eq_refl).
    + reflexivity.
    + simpl. unfold StatusOK. lia.
Defined.

(** The counter does move on a transport error: a response with status 200
    whose connection is lost while the body is read (an unexpected end of
    file after one byte) is a transport error in the words of the
    specification, no JSON is ever parsed, and [jsonParseFailures] goes from
    0 to 1. *)
Lemma fetch_counts_lost_connection :
  ~ (forall (R : Runtime) (network : nat -> string -> GetResult) (s : State),
        spec_TransportError (answer network s) ->
        jsonParseFailures
          (this (snd (fetchAndDecodeClusterHealth network s)))
        = jsonParseFailures (this s)).
Proof.
  intros H.
  specialize (H Sample.runtime (Sample.always Sample.cut_short) Sample.start).
  assert (T : spec_TransportError
                (@answer Sample.runtime (Sample.always Sample.cut_short)
                   Sample.start)).
  { apply connection_lost
      with (bts := list_byte_of_string "{") (err := "unexpected EOF").
    reflexivity. }
  specialize (H T). vm_compute in H. discriminate H.
Qed.

(** A cluster that reports [Green] with a capital: all status values 0. *)
Lemma status_value_exact_Green :
  In "green" colors
  /\ fold_case_space (Status Sample.Green) = "green"
  /\ Status Sample.Green <> "green"
  /\ map (status_Value (statusMetric (NewClusterHealth "pixiu" 0%nat))
            Sample.Green) colors
     = [f0; f0; f0].
Proof.
  assert (I : In "green" colors) by (simpl; auto).
  assert (F : fold_case_space (Status Sample.Green) = "green")
    by reflexivity.
  assert (N : Status Sample.Green <> "green") by (simpl; discriminate).
  split; [exact I|]. split; [exact F|]. split; [exact N|].
  exact (proj2 (status_value_exact "pixiu" 0%nat Sample.Green "green" I F N)).
Defined.

(** Two scrapes that differ in the percentage of active shards alone emit
    the same items. *)
Lemma percent_never_emitted_half :
  tables_of "pixiu" (this Sample.start)
  /\ @fetched Sample.runtime (Sample.always (Sample.ok Sample.body_yellow))
       Sample.start
     = (Sample.yellow, None)
  /\ @fetched Sample.runtime
       (Sample.always (Sample.ok Sample.body_yellow_half)) Sample.start
     = (with_ActiveShardsPercentAsNumber (float64_of_int 50) Sample.yellow,
        None)
  /\ emitted Sample.start
       (snd (@Collect Sample.runtime
               (Sample.always (Sample.ok Sample.body_yellow_half))
               Sample.start))
     = emitted Sample.start
         (snd (@Collect Sample.runtime
                 (Sample.always (Sample.ok Sample.body_yellow))
                 Sample.start)).
Proof.
  assert (T : tables_of "pixiu" (this Sample.start))
    by (split; reflexivity).
  assert (F : @fetched Sample.runtime
                (Sample.always (Sample.ok Sample.body_yellow)) Sample.start
              = (Sample.yellow, None))
    by reflexivity.
  assert (F' : @fetched Sample.runtime
                 (Sample.always (Sample.ok Sample.body_yellow_half))
                 Sample.start
               = (with_ActiveShardsPercentAsNumber (float64_of_int 50)
                    Sample.yellow, None))
    by reflexivity.
  split; [exact T|]. split; [exact F|]. split; [exact F'|].
  exact (proj2 (proj2 (proj2
    (@percent_never_emitted Sample.runtime "pixiu" 0%nat _ _ Sample.start
       Sample.yellow (float64_of_int 50) T F F')))).
Defined.

(** * Further properties of the fetch and of Collect *)

Section Further.

Context {R : Runtime}.

Ltac step :=
  unfold Collect, fetched, fetchAndDecodeClusterHealth, answer, request_URL,
    client_Get, defer, bind, ret, get_this, load, close, modify_this,
    logger_Output in *;
  simpl in *.

Ltac by_answer Ha :=
  step; rewrite ?Ha; simpl;
  try match goal with
      | res : Response |- _ =>
          destruct (StatusCode res =? StatusOK); simpl;
          destruct (Body_ReadAll res) as [? [?|]]; simpl;
          try destruct (json_Unmarshal _ _) as [? [?|]]; simpl;
          destruct (Body_Close res); simpl
      end;
  rewrite ?for_range_send; unfold send; simpl.

(** A Collect call changes [jsonParseFailures] by no more than one [Inc]. *)
Lemma Collect_jsonParseFailures
    (network : nat -> string -> GetResult) (s : State) :
  let s' := snd (Collect network s) in
  jsonParseFailures (this s') = jsonParseFailures (this s)
  \/ jsonParseFailures (this s') = Counter_Inc (jsonParseFailures (this s)).
Proof.
  destruct (answer network s) as [res|err] eqn:Ha; by_answer Ha; auto.
Qed.

(** X1: the body of a response is closed once on every way out of the
    fetch (wrong status, unreadable body, rejected body, success), and
    nothing is closed when the request got no response; the same count holds
    for a whole Collect call. *)
Theorem fetch_closes_body (network : nat -> string -> GetResult)
    (s : State) :
  closed (snd (fetchAndDecodeClusterHealth network s))
  = (closed s + (if answered (answer network s) then 1 else 0))%nat
  /\ closed (snd (Collect network s))
     = (closed s + (if answered (answer network s) then 1 else 0))%nat.
Proof.
  destruct (answer network s) as [res|err] eqn:Ha; by_answer Ha;
    split; lia.
Qed.

(** X2: what a call writes to the log.  The fetch logs one line when closing
    the body fails and nothing else; Collect adds one line carrying the text
    of the error when its fetch returned one, and none when it succeeded. *)
Theorem Collect_log (network : nat -> string -> GetResult) (s : State) :
  logged (snd (fetchAndDecodeClusterHealth network s))
  = (logged s ++ close_lines (answer network s))%list
  /\ logged (snd (Collect network s))
     = (logged s ++ close_lines (answer network s)
        ++ failure_lines (snd (fetched network s)))%list.
Proof.
  destruct (answer network s) as [res|err] eqn:Ha; by_answer Ha;
    rewrite ?app_nil_r, <- ?app_assoc; split; reflexivity.
Qed.

(** X3: an error from closing the body is logged and has no other effect:
    two responses with the same status code and the same body give the same
    returned pair, the same collector and the same emitted items, whether or
    not their bodies close cleanly. *)
Theorem close_error_ignored (network network' : nat -> string -> GetResult)
    (s : State) (res res' : Response) :
  answer network s = GetOk res ->
  answer network' s = GetOk res' ->
  StatusCode res' = StatusCode res ->
  Body_ReadAll res' = Body_ReadAll res ->
  fetched network' s = fetched network s
  /\ this (snd (Collect network' s)) = this (snd (Collect network s))
  /\ ch (snd (Collect network' s)) = ch (snd (Collect network s)).
Proof.
  intros Ha Ha' Hc Hb. step. rewrite Ha, Ha', Hc, Hb.
  destruct (StatusCode res =? StatusOK); simpl;
    destruct (Body_ReadAll res) as [bts [e|]]; simpl;
    try destruct (json_Unmarshal bts zero_clusterHealthResponse)
      as [chr [e|]]; simpl;
    destruct (Body_Close res); destruct (Body_Close res'); simpl;
    rewrite ?for_range_send; unfold send; simpl;
    repeat split; reflexivity.
Qed.

(** X4: of the collector, a fetch can change [jsonParseFailures] alone, and
    by one [Inc] at most; it sends nothing on the metric channel. *)
Theorem fetch_touches_one_counter (network : nat -> string -> GetResult)
    (s : State) :
  let c := this s in
  let c' := this (snd (fetchAndDecodeClusterHealth network s)) in
  url c' = url c /\ up c' = up c /\ totalScrapes c' = totalScrapes c
  /\ metrics c' = metrics c /\ statusMetric c' = statusMetric c
  /\ counterDesc (jsonParseFailures c') = counterDesc (jsonParseFailures c)
  /\ (counterVal (jsonParseFailures c') = counterVal (jsonParseFailures c)
      \/ counterVal (jsonParseFailures c')
         = S (counterVal (jsonParseFailures c)))
  /\ ch (snd (fetchAndDecodeClusterHealth network s)) = ch s.
Proof.
  cbv zeta. destruct (fetch_frame network s) as ([E|E] & _ & Hc & _);
    rewrite E, Hc; simpl; repeat split; auto.
Qed.

(** ** Names and series *)

Lemma append_cancel_l (p a b : string) : p ++ a = p ++ b -> a = b.
Proof.
  induction p as [|c p IH]; simpl; intros H; [assumption|].
  injection H. exact IH.
Qed.

Lemma append_assoc_r (a b c : string) : a ++ (b ++ c) = (a ++ b) ++ c.
Proof. induction a as [|x a IH]; simpl; [reflexivity|]. now rewrite IH. Qed.

(** Under one namespace, every name of the collector is one prefix followed
    by the short name. *)
Lemma BuildFQName_prefix (ns : string) :
  exists P, forall name,
    name <> "" -> BuildFQName ns clusterHealthSubsystem name = P ++ name.
Proof.
  destruct (String.eqb ns "") eqn:E.
  - exists (clusterHealthSubsystem ++ "_"). intros name Hn.
    apply String.eqb_neq in Hn. unfold BuildFQName. rewrite Hn, E. simpl.
    reflexivity.
  - exists (ns ++ "_" ++ clusterHealthSubsystem ++ "_"). intros name Hn.
    apply String.eqb_neq in Hn. unfold BuildFQName. rewrite Hn, E. simpl.
    rewrite <- !append_assoc_r. reflexivity.
Qed.

Ltac clash H :=
  first
    [ contradiction
    | discriminate H
    | apply append_cancel_l in H; discriminate H
    | injection H; intros;
      match goal with
      | E : (?P ++ _)%string = (?P ++ _)%string |- _ =>
          apply append_cancel_l in E; discriminate E
      end ].

Ltac differ :=
  let H := fresh "H" in
  simpl; intros H;
  repeat (destruct H as [H|H]; [clash H|]);
  clash H.

Ltac all_differ := repeat (constructor; [differ|]); try constructor.

(** X5: the fifteen descriptions a collector made by [NewClusterHealth]
    describes have fifteen different fully qualified names, whatever the
    namespace, empty or not. *)
Theorem Describe_names_distinct (ns : string) (p : ptr) :
  NoDup (map fqName (Describe (NewClusterHealth ns p))).
Proof.
  destruct (BuildFQName_prefix ns) as [P HP].
  unfold Describe. simpl. rewrite !HP by discriminate.
  all_differ.
Qed.

(** X6: every item a Collect call emits, on a collector with the tables of
    [NewClusterHealth], has as many label values as its description has
    variable labels: no [MustNewConstMetric] call of Collect is given a wrong
    number of them. *)
Theorem Collect_labels_fit (ns : string)
    (network : nat -> string -> GetResult) (s : State) :
  tables_of ns (this s) ->
  Forall (fun m => labels_fit m = true) (emitted s (snd (Collect network s))).
Proof.
  intros [Tm Ts]. destruct (fetch_cases network s) as [[chr H]|H].
  - destruct (Collect_healthy network s chr H) as (_ & Hc & _).
    rewrite (emitted_app _ _ _ Hc), Tm, Ts. simpl. repeat constructor.
  - destruct (Collect_unreachable network s H) as (_ & _ & Hc & _).
    rewrite (emitted_app _ _ _ Hc). repeat constructor.
Qed.

(** X7: no two items of one Collect call belong to the same series: their
    fully qualified names differ, or their label values do (the three status
    samples share a name and differ in the colour). *)
Theorem Collect_series_distinct (ns : string)
    (network : nat -> string -> GetResult) (s : State) :
  made_by ns (this s) ->
  let s' := snd (Collect network s) in
  NoDup (map (series (this s')) (emitted s s')).
Proof.
  intros ([Tm Ts] & Hu & Ht & Hj) s'.
  destruct (BuildFQName_prefix ns) as [P HP].
  destruct (Collect_frame network s) as (_ & _ & _ & Hg' & Hj' & Ht' & _).
  fold s' in Hg', Hj', Ht'.
  destruct (fetch_cases network s) as [[chr H]|H].
  - destruct (Collect_healthy network s chr H) as (_ & Hc & _).
    fold s' in Hc. rewrite (emitted_app _ _ _ Hc), Tm, Ts.
    unfold series. simpl. rewrite Hg', Hj', Ht'. simpl.
    rewrite Hu, Ht, Hj. simpl.
    rewrite !HP by discriminate. all_differ.
  - destruct (Collect_unreachable network s H) as (_ & _ & Hc & _).
    fold s' in Hc. rewrite (emitted_app _ _ _ Hc).
    unfold series. simpl. rewrite Hg', Hj', Ht'. simpl.
    rewrite Hu, Ht, Hj. simpl.
    rewrite !HP by discriminate. all_differ.
Qed.

(** ** One collector over many calls *)

(** X8: after [n] Collect calls on one collector, [totalScrapes] has grown
    by [n] and [jsonParseFailures] by no more than [n], never down; so a
    collector that starts with no more parse failures than scrapes stays
    so. *)
Theorem times_Collect_counters (network : nat -> string -> GetResult)
    (n : nat) (s : State) :
  let c := this s in
  let c' := this (snd (times n (Collect network) s)) in
  counterVal (totalScrapes c') = (counterVal (totalScrapes c) + n)%nat
  /\ (counterVal (jsonParseFailures c)
      <= counterVal (jsonParseFailures c'))%nat
  /\ (counterVal (jsonParseFailures c')
      <= counterVal (jsonParseFailures c) + n)%nat.
Proof.
  revert s. induction n as [|n IH]; intros s; cbv zeta.
  - simpl. repeat split; lia.
  - simpl. unfold bind. destruct (Collect network s) as [[] s1] eqn:E.
    destruct (Collect_frame network s) as (_ & _ & _ & _ & _ & Ht & _).
    pose proof (Collect_jsonParseFailures network s) as Hj.
    rewrite E in Ht, Hj. simpl in Ht, Hj.
    destruct (IH s1) as (I1 & I2 & I3). rewrite Ht in I1. simpl in I1.
    destruct Hj as [Hj|Hj]; rewrite Hj in I2, I3; simpl in I2, I3;
      repeat split; lia.
Qed.

(** ** The table against the snapshot *)

(** X9: each entry of the table is named after the JSON key of one integer
    field of the snapshot and reports that field, converted to a float; the
    eleven integer fields are reported by one entry each. *)
Theorem table_reads_named_fields (ns : string) (p : ptr) :
  exists fs : list IntField,
    NoDup fs /\ (forall f, In f fs)
    /\ map (fun m => fqName (metric_Desc m))
           (metrics (NewClusterHealth ns p))
       = map (fun f => BuildFQName ns clusterHealthSubsystem (json_key f)) fs
    /\ forall chr,
         map (fun m => metric_Value m chr) (metrics (NewClusterHealth ns p))
         = map (fun f => float64_of_int (read_field f chr)) fs.
Proof.
  exists [F_ActivePrimaryShards; F_ActiveShards; F_DelayedUnassignedShards;
          F_InitializingShards; F_NumberOfDataNodes; F_NumberOfInFlightFetch;
          F_TaskMaxWaitingInQueueMillis; F_NumberOfNodes;
          F_NumberOfPendingTasks; F_RelocatingShards; F_UnassignedShards].
  split; [|split; [|split]].
  - repeat (constructor; [simpl; intuition discriminate|]). constructor.
  - intros []; simpl; tauto.
  - reflexivity.
  - reflexivity.
Qed.

(** X10: [TimedOut] is decoded and never emitted: two successful Collect
    calls from the same state whose snapshots differ in that field alone
    emit the same items. *)
Theorem timed_out_never_emitted (ns : string)
    (network network' : nat -> string -> GetResult) (s : State)
    (chr : clusterHealthResponse) (b : bool) :
  tables_of ns (this s) ->
  fetched network s = (chr, None) ->
  fetched network' s = (with_TimedOut b chr, None) ->
  emitted s (snd (Collect network' s)) = emitted s (snd (Collect network s)).
Proof.
  intros [Tm Ts] H H'.
  destruct (Collect_healthy network s chr H) as (_ & Hc & _).
  destruct (Collect_healthy network' s _ H') as (_ & Hc' & _).
  rewrite (emitted_app _ _ _ Hc), (emitted_app _ _ _ Hc'), Tm, Ts.
  reflexivity.
Qed.

(** ** The scrape handler *)

(** The samples of one request, in the order their items arrived on the
    channel. *)
Lemma NewHandler_run (ns : string)
    (network : nat -> string -> GetResult) (p : ptr) (s : State) :
  let c0 := NewClusterHealth ns p in
  let resp := fst (NewHandler ns network p s) in
  let s' := snd (NewHandler ns network p s) in
  exists consts v j,
    resp
    = (consts
       ++ [mkSample (gaugeDesc (up c0)) GaugeValue v [];
           mkSample (counterDesc (totalScrapes c0)) CounterValue
                    (float64_of_int 1) [];
           mkSample (counterDesc (jsonParseFailures c0)) CounterValue
                    (float64_of_int (Z.of_nat j)) []])%list
    /\ ((v = f1 /\ j = 0%nat /\ List.length consts = 14%nat)
        \/ (v = f0 /\ (j <= 1)%nat /\ consts = []))
    /\ heap s' = heap s
    /\ requests s'
       = (requests s
          ++ [URL_String
                (with_Path (path_Join [Path (heap s p); "/_cluster/health"])
                           (heap s p))])%list.
Proof.
  cbv zeta. unfold NewHandler. simpl.
  set (s1 := mkState (NewClusterHealth ns p) (heap s) (requests s)
                     (closed s) (logged s) []).
  destruct (Collect_frame network s1) as (_ & _ & _ & _ & _ & _ & Hh & Hr).
  destruct (fetch_cases network s1) as [[chr H]|H].
  - destruct (Collect_healthy network s1 chr H) as (Ht & Hc & _).
    exists (map (Write (this (snd (Collect network s1))))
                (map (field_sample chr) (metrics (this s1))
                 ++ map (status_sample (statusMetric (this s1)) chr) colors)),
           f1, 0%nat.
    split; [|split; [|split]].
    + rewrite Hc, Ht. simpl. reflexivity.
    + left. repeat split.
    + exact Hh.
    + exact Hr.
  - destruct (Collect_unreachable network s1 H)
      as (Hu & Ht & Hc & (_ & _ & _ & Hd) & _).
    pose proof (Collect_jsonParseFailures network s1) as Hj.
    exists [], f0.
    destruct Hj as [Hj|Hj].
    + exists 0%nat. split; [|split; [|split]].
      * rewrite Hc. simpl. rewrite Hu, Ht, Hj. reflexivity.
      * right. repeat split. lia.
      * exact Hh.
      * exact Hr.
    + exists 1%nat. split; [|split; [|split]].
      * rewrite Hc. simpl. rewrite Hu, Ht, Hj. reflexivity.
      * right. repeat split. lia.
      * exact Hh.
      * exact Hr.
Qed.

(** X11: what one request is answered with, in whatever order.  The
    collector is new, so the response holds [up], [total_scrapes] with value
    1 and [json_parse_failures] with value 0 or 1, whatever earlier requests
    did.  Besides these three it holds fourteen samples when [up] is 1, and
    then no parse failure is counted, and no other sample when [up] is 0.
    The request made is for the base URL behind the pointer with
    [/_cluster/health] joined to its path, and the base URL stays as it
    was. *)
Theorem NewHandler_response (ns : string)
    (network : nat -> string -> GetResult) (p : ptr) (s : State) :
  let c0 := NewClusterHealth ns p in
  let resp := fst (NewHandler ns network p s) in
  let s' := snd (NewHandler ns network p s) in
  exists consts v j,
    Permutation resp
      (mkSample (gaugeDesc (up c0)) GaugeValue v []
       :: mkSample (counterDesc (totalScrapes c0)) CounterValue
                   (float64_of_int 1) []
       :: mkSample (counterDesc (jsonParseFailures c0)) CounterValue
                   (float64_of_int (Z.of_nat j)) []
       :: consts)
    /\ ((v = f1 /\ j = 0%nat /\ List.length consts = 14%nat)
        \/ (v = f0 /\ (j <= 1)%nat /\ consts = []))
    /\ heap s' = heap s
    /\ requests s'
       = (requests s
          ++ [URL_String
                (with_Path (path_Join [Path (heap s p); "/_cluster/health"])
                           (heap s p))])%list.
Proof.
  cbv zeta.
  destruct (NewHandler_run ns network p s)
    as (consts & v & j & Hresp & Hcase & Hh & Hr).
  exists consts, v, j. split; [|split; [|split]]; try assumption.
  cbv zeta in Hresp. rewrite Hresp.
  apply Permutation_sym.
  apply (Permutation_app_comm
           [mkSample (gaugeDesc (up (NewClusterHealth ns p))) GaugeValue v [];
            mkSample (counterDesc (totalScrapes (NewClusterHealth ns p)))
                     CounterValue (float64_of_int 1) [];
            mkSample (counterDesc (jsonParseFailures (NewClusterHealth ns p)))
                     CounterValue (float64_of_int (Z.of_nat j)) []]
           consts).
Qed.

(** X12: a row of [n] requests makes [n] fetches, all for the same URL, and
    every one of the [n] responses reports [total_scrapes] as 1: the
    counters do not add up from one request to the next. *)
Theorem scrapes_do_not_accumulate (ns : string)
    (network : nat -> string -> GetResult) (p : ptr) (n : nat) (s : State) :
  let c0 := NewClusterHealth ns p in
  let resps := fst (scrapes ns network p n s) in
  let s' := snd (scrapes ns network p n s) in
  List.length resps = n
  /\ Forall (fun resp =>
               In (mkSample (counterDesc (totalScrapes c0)) CounterValue
                            (float64_of_int 1) [])
                  resp)
            resps
  /\ heap s' = heap s
  /\ requests s'
     = (requests s
        ++ repeat
             (URL_String
                (with_Path (path_Join [Path (heap s p); "/_cluster/health"])
                           (heap s p)))
             n)%list.
Proof.
  revert s. induction n as [|n IH]; intros s; cbv zeta.
  - simpl. unfold ret. simpl. rewrite app_nil_r. repeat split. constructor.
  - simpl. unfold bind.
    destruct (NewHandler_run ns network p s)
      as (consts & v & j & Hresp & _ & Hh & Hr).
    destruct (NewHandler ns network p s) as [resp s1].
    simpl in Hresp, Hh, Hr.
    destruct (IH s1) as (IL & IF & IH' & IR).
    destruct (scrapes ns network p n s1) as [resps s2].
    simpl in *. unfold ret. simpl.
    rewrite IH', IR, Hh, Hr, <- app_assoc. simpl.
    split; [now rewrite IL|]. split; [|split; reflexivity].
    constructor; [|exact IF].
    rewrite Hresp. apply in_or_app. right. simpl. auto.
Qed.

End Further.

(** * The further properties on sample inputs *)

(** A body that fails to close changes nothing but the log. *)
Lemma close_error_ignored_yellow :
  ch (snd (@Collect Sample.runtime
             (Sample.always (Sample.ok_unclosed Sample.body_yellow))
             Sample.start))
  = ch (snd (@Collect Sample.runtime
               (Sample.always (Sample.ok Sample.body_yellow)) Sample.start))
  /\ logged (snd (@Collect Sample.runtime
                    (Sample.always (Sample.ok_unclosed Sample.body_yellow))
                    Sample.start))
     = ["msg:failed to close http.Clienterr:use of closed connection"].
Proof.
  split; [|reflexivity].
  exact (proj2 (proj2
    (@close_error_ignored Sample.runtime
       (Sample.always (Sample.ok Sample.body_yellow))
       (Sample.always (Sample.ok_unclosed Sample.body_yellow))
       Sample.start
       (mkResponse 200 (Sample.body_yellow, None) None)
       (mkResponse 200 (Sample.body_yellow, None)
                   (Some "use of closed connection"))
       eq_refl eq_refl eq_refl eq_refl))).
Defined.

(** The seventeen items of a healthy scrape all have fitting labels. *)
Lemma Collect_labels_fit_yellow :
  tables_of "pixiu" (this Sample.start)
  /\ Forall (fun m => labels_fit m = true)
       (emitted Sample.start
          (snd (@Collect Sample.runtime
                  (Sample.always (Sample.ok Sample.body_yellow))
                  Sample.start))).
Proof.
  assert (T : tables_of "pixiu" (this Sample.start))
    by (split; reflexivity).
  split; [exact T|].
  exact (@Collect_labels_fit Sample.runtime "pixiu"
           (Sample.always (Sample.ok Sample.body_yellow)) Sample.start T).
Defined.

(** The seventeen items of a healthy scrape are seventeen series. *)
Lemma Collect_series_distinct_yellow :
  made_by "pixiu" (this Sample.start)
  /\ NoDup
       (map (series
               (this (snd (@Collect Sample.runtime
                             (Sample.always (Sample.ok Sample.body_yellow))
                             Sample.start))))
          (emitted Sample.start
             (snd (@Collect Sample.runtime
                     (Sample.always (Sample.ok Sample.body_yellow))
                     Sample.start)))).
Proof.
  assert (T : made_by "pixiu" (this Sample.start))
    by (repeat split; reflexivity).
  split; [exact T|].
  exact (@Collect_series_distinct Sample.runtime "pixiu"
           (Sample.always (Sample.ok Sample.body_yellow)) Sample.start T).
Defined.

(** A scrape of a cluster whose health request timed out emits what the
    scrape of the same cluster without the timeout emits. *)
Lemma timed_out_never_emitted_yellow :
  tables_of "pixiu" (this Sample.start)
  /\ @fetched Sample_timed_out.runtime
       (Sample.always (Sample.ok Sample.body_yellow)) Sample.start
     = (Sample.yellow, None)
  /\ @fetched Sample_timed_out.runtime
       (Sample.always (Sample.ok Sample_timed_out.body_yellow)) Sample.start
     = (with_TimedOut true Sample.yellow, None)
  /\ emitted Sample.start
       (snd (@Collect Sample_timed_out.runtime
               (Sample.always (Sample.ok Sample_timed_out.body_yellow))
               Sample.start))
     = emitted Sample.start
         (snd (@Collect Sample_timed_out.runtime
                 (Sample.always (Sample.ok Sample.body_yellow))
                 Sample.start)).
Proof.
  assert (T : tables_of "pixiu" (this Sample.start))
    by (split; reflexivity).
  assert (F : @fetched Sample_timed_out.runtime
                (Sample.always (Sample.ok Sample.body_yellow)) Sample.start
              = (Sample.yellow, None))
    by reflexivity.
  assert (F' : @fetched Sample_timed_out.runtime
                 (Sample.always (Sample.ok Sample_timed_out.body_yellow))
                 Sample.start
               = (with_TimedOut true Sample.yellow, None))
    by reflexivity.
  split; [exact T|]. split; [exact F|]. split; [exact F'|].
  exact (@timed_out_never_emitted Sample_timed_out.runtime "pixiu" _ _
           Sample.start Sample.yellow true T F F').
Defined.
